(** * Pixel buffers of the material combiner: conversion, acquisition,
      persistence and pasting

    A shallow embedding of [utils/pixel_buffer.py].  A pixel buffer is a
    single precision float numpy array viewed in the shape
    [(image.height, image.width, image.channels)]; it is modelled as its
    shape together with its flat, row-major (C order) contents.  Numpy views
    are modelled by the base offsets they address, so that the in-place
    updates of the source are explicit updates of the flat contents. *)

From Stdlib Require Import ZArith Lia SpecFloat.
From stdpp Require Import base list strings gmap.

Open Scope string_scope.
Open Scope nat_scope.

(** ** Python exceptions

    The source raises [TypeError] and [RuntimeError]; numpy itself raises
    [ValueError] when an assigned value cannot be broadcast to the indexed
    region.  The payload is the constant part of the message. *)

Inductive exception :=
| TypeError (msg : string)
| RuntimeError (msg : string)
| ValueError (msg : string)
| ReferenceError (msg : string).

Inductive result (A : Type) :=
| Return (a : A)
| Raise (e : exception).
Arguments Return {A} a.
Arguments Raise {A} e.

Definition is_TypeError {A} (r : result A) : Prop :=
  match r with Raise (TypeError _) => True | _ => False end.

(** The messages of the source, up to their formatted arguments. *)
Definition msg_unsupported_image_colorspace := "Unsupported image colorspace".
Definition msg_unsupported_atlas_colorspace := "Unsupported atlas colorspace".
Definition msg_shape_mismatch := "Buffer shape does not match image shape".
Definition msg_color_components :=
  "A color can have between 1 and 4 (inclusive) components".
Definition msg_source_buffer_or_pixel :=
  "source buffer or pixel could not be parsed for pasting".
Definition msg_source_pixel := "source pixel could not be parsed for pasting".
Definition msg_box_required :=
  "When pasting a pixel color, a box region to paste to must be supplied".
Definition msg_corner_or_box :=
  "corner or box must be either a 2-tuple or 4-tuple".
Definition msg_more_channels :=
  "Pixels in source have more channels than pixels in target, they cannot be pasted".
(** numpy's own messages *)
Definition msg_broadcast := "could not broadcast input array".
Definition msg_reshape := "cannot reshape array".
(** the host's own messages *)
Definition msg_foreach_set := "array length mismatch".
Definition msg_removed := "StructRNA of type Image has been removed".

(** ** Scatter and gather on flat contents

    A numpy view addresses offsets of the base array it was taken from.
    Reading through an index copies the addressed values out (gather);
    assigning through it writes into the base (scatter). *)

Section Flat.
Context {A : Type}.

(** [base[i] = v] for every pair [(i, v)], in order. *)
Definition scatter (writes : list (nat * A)) (base : list A) : list A :=
  fold_left (fun acc w => <[w.1 := w.2]> acc) writes base.

(** The values of [base] at the offsets [idx], in order. *)
Definition gather (idx : list nat) (base : list A) : list A :=
  omap (fun i => base !! i) idx.

(** The offsets of [idx] at the positions where [mask] holds. *)
Definition select (idx : list nat) (mask : list bool) : list nat :=
  (filter (fun p => p.2 = true) (zip idx mask)).*1.

(** The shape the two colorspace conversions share: the mask is taken once,
    the selected values are replaced through [g1], the mask is inverted and
    the values it now selects are replaced through [g2]. *)
Definition masked_update (view : list nat) (p : A -> bool) (g1 g2 : A -> A)
    (px : list A) : list A :=
  let mask := p <$> gather view px in
  let px :=
    scatter (zip (select view mask) (g1 <$> gather (select view mask) px)) px in
  let mask := negb <$> mask in
  scatter (zip (select view mask) (g2 <$> gather (select view mask) px)) px.

End Flat.

(** ** Python slices

    [slice_indices start stop n] is the first index and the length of
    [a[start:stop]] on an axis of length [n]: negative bounds count from the
    end, and bounds outside the axis are clamped to it. *)

Definition slice_adjust (i : Z) (n : nat) : Z :=
  if (i <? 0)%Z then Z.max (i + Z.of_nat n) 0 else Z.min i (Z.of_nat n).

Definition slice_indices (start stop : Z) (n : nat) : nat * nat :=
  let a := slice_adjust start n in
  let b := slice_adjust stop n in
  (Z.to_nat a, Z.to_nat (b - a)).

(** A dimension of an assigned value fits a dimension of the indexed region
    when they are equal or the value's is 1 (numpy broadcasting). *)
Definition broadcastable (value_dim region_dim : nat) : bool :=
  bool_decide (value_dim = region_dim) || bool_decide (value_dim = 1).

(** The index read in a value dimension for index [i] of the region. *)
Definition broadcast_index (value_dim i : nat) : nat :=
  if bool_decide (value_dim = 1) then 0 else i.

(** ** The colorspace names *)

Definition linear_colorspaces : gset string :=
  {[ "Linear"; "Non-Color"; "Raw" ]}.
Definition supported_colorspaces : gset string :=
  linear_colorspaces ∪ {[ "sRGB" ]}.

(** ** Single precision floats

    The values of a pixel buffer and the numpy operations the source applies
    to them, elementwise: [<], [*], [/], [+], [-] and [**].  The constants
    are the single precision values of the literals of the source. *)

Class Float32 (F : Type) := {
  fltb : F -> F -> bool;
  fmul : F -> F -> F;
  fdiv : F -> F -> F;
  fadd : F -> F -> F;
  fsub : F -> F -> F;
  fpow : F -> F -> F;
  f0 : F;
  f0_0031308 : F;
  f0_04045 : F;
  f12_92 : F;
  f1_055 : F;
  f0_055 : F;
  f2_4 : F;
  f1_0_div_2_4 : F
}.

(** IEEE 754 binary32 with round to nearest even, as the standard defines
    it.  The standard does not define [**], which numpy leaves to the
    platform: it is a parameter.  The literals are given by mantissa and
    exponent. *)
Definition binary32 : Type := spec_float.

Definition b32 (m e : Z) : binary32 := binary_normalize 24 128 m e false.

Definition binary32_ops (pow : binary32 -> binary32 -> binary32)
  : Float32 binary32 := {|
  fltb := SFltb;
  fmul := SFmul 24 128;
  fdiv := SFdiv 24 128;
  fadd := SFadd 24 128;
  fsub := SFsub 24 128;
  fpow := pow;
  f0 := S754_zero false;
  f0_0031308 := b32 13446684 (-32);
  f0_04045 := b32 10858214 (-28);
  f12_92 := b32 13547602 (-20);
  f1_055 := b32 8849981 (-23);
  f0_055 := b32 14763950 (-28);
  f2_4 := b32 10066330 (-22);
  f1_0_div_2_4 := b32 13981013 (-25)
|}.

(** The binary32 floats with a stand-in for [**], for the examples. *)
#[local] Instance binary32_example : Float32 binary32 :=
  binary32_ops (fun x _ => x).

Section PixelBuffer.

Context {F : Type} {float32 : Float32 F}.

(** *** Pixel buffers *)

Record pixel_buffer := PixelBuffer {
  height : nat;
  width : nat;
  channels : nat;
  pixels : list F
}.

Definition shape (b : pixel_buffer) : nat * nat * nat :=
  (height b, width b, channels b).

(** numpy keeps the contents of an array as long as its shape says. *)
Definition well_formed (b : pixel_buffer) : Prop :=
  length (pixels b) = height b * width b * channels b.

(** The offset of [buffer[r, x, c]] in the flat contents. *)
Definition offset (b : pixel_buffer) (r x c : nat) : nat :=
  (r * width b + x) * channels b + c.

Definition buffer_get (b : pixel_buffer) (r x c : nat) : option F :=
  pixels b !! offset b r x c.

Definition with_pixels (b : pixel_buffer) (px : list F) : pixel_buffer :=
  {| height := height b; width := width b; channels := channels b;
     pixels := px |}.

(** [buffer[:, :, :3]]: the offsets of the first three channels of every
    pixel, in C order. *)
Definition rgb_only_view (b : pixel_buffer) : list nat :=
  r ← seq 0 (height b);
  x ← seq 0 (width b);
  c ← seq 0 (snd (slice_indices 0 3 (channels b)));
  [offset b r x c].

(** *** Colorspace conversion *)

Definition buffer_convert_linear_to_srgb (buffer : pixel_buffer) : pixel_buffer :=
  let rgb_only_view := rgb_only_view buffer in
  let px := pixels buffer in
  let is_small := (fun v => fltb v f0_0031308) <$> gather rgb_only_view px in
  let small_rgb := gather (select rgb_only_view is_small) px in
  let px := scatter
    (zip (select rgb_only_view is_small)
         ((fun s => if fltb s f0 then f0 else fmul s f12_92) <$> small_rgb)) px in
  let is_not_small := negb <$> is_small in
  let px := scatter
    (zip (select rgb_only_view is_not_small)
         ((fun v => fsub (fmul f1_055 (fpow v f1_0_div_2_4)) f0_055)
            <$> gather (select rgb_only_view is_not_small) px)) px in
  with_pixels buffer px.

Definition buffer_convert_srgb_to_linear (buffer : pixel_buffer) : pixel_buffer :=
  let rgb_only_view := rgb_only_view buffer in
  let px := pixels buffer in
  let is_small := (fun v => fltb v f0_04045) <$> gather rgb_only_view px in
  let small_rgb := gather (select rgb_only_view is_small) px in
  let px := scatter
    (zip (select rgb_only_view is_small)
         ((fun s => if fltb s f0 then f0 else fdiv s f12_92) <$> small_rgb)) px in
  let is_not_small := negb <$> is_small in
  let px := scatter
    (zip (select rgb_only_view is_not_small)
         ((fun v => fpow (fdiv (fadd v f0_055) f1_055) f2_4)
            <$> gather (select rgb_only_view is_not_small) px)) px in
  with_pixels buffer px.

(** *** Host images

    [bpy.data.images] maps the handles of the live image datablocks to their
    state.  Only the 2.83 code path of [__get_buffer_internal] and
    [__write_pixel_buffer_internal] ([foreach_get] and [foreach_set]) is
    modelled; the other paths transfer the same values by other means. *)

Record image := Image {
  size : nat * nat;
  img_channels : nat;
  colorspace_name : string;
  img_pixels : list F
}.

(** The host keeps as many values as the size and channels of the image say. *)
Definition image_well_formed (i : image) : Prop :=
  length (img_pixels i) = (size i).2 * (size i).1 * img_channels i.

(** The resampling of the host's [Image.scale]. *)
Variable scale_pixels : image -> nat -> nat -> list F.

(** Computations on the host: the image store is threaded through, and an
    exception ends the computation with the store as it is then. *)
Definition bpy (A : Type) : Type :=
  gmap nat image -> gmap nat image * result A.

#[local] Instance bpy_ret : MRet bpy :=
  fun A a images => (images, Return a).
#[local] Instance bpy_bind : MBind bpy :=
  fun A B f m images =>
    match m images with
    | (images', Return a) => f a images'
    | (images', Raise e) => (images', Raise e)
    end.

Definition raise {A} (e : exception) : bpy A :=
  fun images => (images, Raise e).

(** Reading the state of the datablock behind a handle. *)
Definition datablock (img : nat) : bpy image :=
  fun images =>
    match images !! img with
    | Some i => (images, Return i)
    | None => (images, Raise (ReferenceError msg_removed))
    end.

(** A new datablock with the state [i], under a handle not yet in use. *)
Definition images_new (i : image) : bpy nat :=
  fun images =>
    let handle := fresh (dom images) in
    (<[handle := i]> images, Return handle).

(** Replacing the state of the datablock behind a handle. *)
Definition images_update (img : nat) (i : image) : bpy unit :=
  fun images => (<[img := i]> images, Return tt).

Definition images_delete (img : nat) : bpy unit :=
  fun images => (delete img images, Return tt).

(** [img.copy()] *)
Definition image_copy (img : nat) : bpy nat :=
  i ← datablock img;
  images_new i.

(** [img.scale(width, height)]: the state of the image afterwards, and the
    call. *)
Definition scaled (i : image) (width height : nat) : image :=
  {| size := (width, height);
     img_channels := img_channels i;
     colorspace_name := colorspace_name i;
     img_pixels := scale_pixels i width height |}.

Definition image_scale (img : nat) (width height : nat) : bpy unit :=
  i ← datablock img;
  images_update img (scaled i width height).

(** [bpy.data.images.remove(img)] *)
Definition images_remove (img : nat) : bpy unit :=
  _ ← datablock img;
  images_delete img.

(** [img.pixels.foreach_set(values)] *)
Definition pixels_foreach_set (img : nat) (values : list F) : bpy unit :=
  i ← datablock img;
  if bool_decide (length values = length (img_pixels i)) then
    images_update img {| size := size i;
                         img_channels := img_channels i;
                         colorspace_name := colorspace_name i;
                         img_pixels := values |}
  else raise (TypeError msg_foreach_set).

Definition __get_buffer_internal (img : nat) : bpy (list F) :=
  i ← datablock img;
  mret (img_pixels i).

Definition __write_pixel_buffer_internal (img : nat) (buffer : pixel_buffer) : bpy unit :=
  pixels_foreach_set img (pixels buffer).

(** *** Acquisition

    A Python function that falls off its end returns [None]. *)
Definition get_pixel_buffer (img : nat) (atlas_colorspace : string)
  : bpy (option pixel_buffer) :=
  i ← datablock img;
  let '(width, height) := size i in
  let channels := img_channels i in
  buffer ← __get_buffer_internal img;
  if negb (bool_decide (length buffer = height * width * channels)) then
    raise (ValueError msg_reshape)
  else
  let buffer := PixelBuffer height width channels buffer in
  let img_color_space := colorspace_name i in
  if bool_decide (atlas_colorspace = "sRGB") then
    if bool_decide (img_color_space = "sRGB") then
      mret (Some buffer)
    else if bool_decide (img_color_space ∈ linear_colorspaces) then
      mret (Some (buffer_convert_linear_to_srgb buffer))
    else
      raise (TypeError msg_unsupported_image_colorspace)
  else if bool_decide (atlas_colorspace ∈ linear_colorspaces) then
    if bool_decide (img_color_space ∈ linear_colorspaces) then
      mret (Some buffer)
    else if bool_decide (img_color_space = "sRGB") then
      mret (Some (buffer_convert_srgb_to_linear buffer))
    else
      mret None
  else
    raise (TypeError msg_unsupported_atlas_colorspace).

Definition get_resized_pixel_buffer (img : nat) (size : nat * nat)
  : bpy (option pixel_buffer) :=
  copy ← image_copy img;
  _ ← image_scale copy size.1 size.2;
  buffer ← get_pixel_buffer copy "sRGB";
  _ ← images_remove copy;
  mret buffer.

(** *** Persistence *)

Definition write_pixel_buffer (img : nat) (buffer : pixel_buffer) : bpy unit :=
  i ← datablock img;
  let '(width, height) := size i in
  let image_shape := (height, width, img_channels i) in
  if bool_decide (shape buffer = image_shape) then
    __write_pixel_buffer_internal img buffer
  else
    raise (RuntimeError msg_shape_mismatch).

(** [new_image name width height alpha] stands for the state of the image
    that the host's [bpy.data.images.new(name, width, height, alpha)]
    creates. *)
Definition buffer_to_image
    (new_image : string -> nat -> nat -> bool -> image)
    (buffer : pixel_buffer) (name : string) : bpy nat :=
  image ← images_new
            (new_image name (width buffer) (height buffer)
               (bool_decide (channels buffer = 4)));
  _ ← write_pixel_buffer image buffer;
  mret image.

(** *** Blank buffers *)

Definition new_pixel_buffer (size : nat * nat) (color : list F)
  : result pixel_buffer :=
  let '(width, height) := size in
  let channels := length color in
  if bool_decide (4 < channels) || bool_decide (channels = 0) then
    Raise (TypeError msg_color_components)
  else
    Return (PixelBuffer height width channels
              (mjoin (replicate (height * width) color))).

(** *** Pasting

    What can be passed as [source_buffer_or_pixel]: a numpy array of any
    number of dimensions, a tuple or list, or anything else. *)
Inductive paste_source :=
| Ndarray (source_shape : list nat) (data : list F)
| Sequence (items : list F)
| OtherObject.

(** [len(source_buffer_or_pixel)] and the values of a one-dimensional
    source. *)
Definition source_len (source : paste_source) : nat :=
  match source with
  | Ndarray source_shape _ => hd 0 source_shape
  | Sequence items => length items
  | OtherObject => 0
  end.

Definition source_values (source : paste_source) : list F :=
  match source with
  | Ndarray _ data => data
  | Sequence items => items
  | OtherObject => []
  end.

(** The offset of [view[y, x, c]] for [view = buffer[::-1, :, :]]. *)
Definition flipped_offset (b : pixel_buffer) (y x c : nat) : nat :=
  offset b (height b - 1 - y) x c.

(** The value of [view[y, x, c]] for [view = buffer[::-1, :, :]]. *)
Definition view_get (b : pixel_buffer) (y x c : nat) : option F :=
  pixels b !! flipped_offset b y x c.

(** How the kind of the source is found out: [Return true] when the source
    is the data of a single pixel, [Return false] when it is a buffer. *)
Definition source_is_pixel (target_buffer : pixel_buffer)
    (source_buffer_or_pixel : paste_source) : result bool :=
  match source_buffer_or_pixel with
  | Ndarray source_shape _ =>
      let source_dimensions := length source_shape in
      if bool_decide (source_dimensions = 3) then
        Return false
      else if bool_decide (source_dimensions = 1)
              && bool_decide (source_dimensions ≤ channels target_buffer) then
        Return true
      else
        Raise (TypeError msg_source_buffer_or_pixel)
  | Sequence items =>
      if bool_decide (length items ≤ channels target_buffer) then
        Return true
      else
        Raise (TypeError msg_source_pixel)
  | OtherObject => Raise (TypeError msg_source_pixel)
  end.

Definition fit_box (target_buffer : pixel_buffer) (box : Z * Z * Z * Z)
  : Z * Z * Z * Z :=
  let '(left_, upper, right_, lower) := box in
  let left_ := Z.max left_ 0 in
  let upper := Z.max upper 0 in
  let right_ := Z.min right_ (Z.of_nat (width target_buffer) + 1) in
  let lower := Z.min lower (Z.of_nat (height target_buffer) + 1) in
  (left_, upper, right_, lower).

(** The writes of [view[rows, cols, chans] = value] for
    [view = target[::-1, :, :]], each of the three slices given by its first
    index and its length, [value] already broadcast to the region. *)
Definition region_writes (target : pixel_buffer) (rows cols chans : nat * nat)
    (value : nat -> nat -> nat -> option F) : list (nat * F) :=
  dy ← seq 0 rows.2;
  dx ← seq 0 cols.2;
  c ← seq 0 chans.2;
  match value dy dx c with
  | Some v =>
      [(flipped_offset target (rows.1 + dy) (cols.1 + dx) (chans.1 + c), v)]
  | None => []
  end.

(** [pixel_buffer_paste] changes its target in place and returns nothing:
    the result is the target afterwards and how the call ended.  The debug
    prints are omitted.  [left_] and [right_] stand for the source's [left] and
    [right]. *)
Definition pixel_buffer_paste (target_buffer : pixel_buffer)
    (source_buffer_or_pixel : paste_source) (corner_or_box : list Z)
  : pixel_buffer * result unit :=
  match source_is_pixel target_buffer source_buffer_or_pixel with
  | Raise e => (target_buffer, Raise e)
  | Return true =>
      match corner_or_box with
      | [left_; upper; right_; lower] =>
          let '(left_, upper, right_, lower) :=
            fit_box target_buffer (left_, upper, right_, lower) in
          let num_source_channels := source_len source_buffer_or_pixel in
          let rows := slice_indices upper lower (height target_buffer) in
          let cols := slice_indices left_ right_ (width target_buffer) in
          let chans :=
            slice_indices 0 (Z.of_nat num_source_channels)
              (channels target_buffer) in
          if broadcastable num_source_channels chans.2 then
            (with_pixels target_buffer
               (scatter
                  (region_writes target_buffer rows cols chans
                     (fun _ _ c =>
                        source_values source_buffer_or_pixel
                          !! broadcast_index num_source_channels c))
                  (pixels target_buffer)),
             Return tt)
          else (target_buffer, Raise (ValueError msg_broadcast))
      | _ => (target_buffer, Raise (TypeError msg_box_required))
      end
  | Return false =>
      match source_buffer_or_pixel with
      | Ndarray [source_height; source_width; source_channels] data =>
          let source_buffer :=
            PixelBuffer source_height source_width source_channels data in
          let box :=
            match corner_or_box with
            | [left_; upper] =>
                Some (left_, upper,
                      left_ + Z.of_nat source_width,
                      upper + Z.of_nat source_height)%Z
            | [left_; upper; right_; lower] => Some (left_, upper, right_, lower)
            | _ => None
            end in
          match box with
          | None => (target_buffer, Raise (TypeError msg_corner_or_box))
          | Some (left_, upper, right_, lower) =>
              if bool_decide (source_channels ≤ channels target_buffer) then
                let '(fit_left, fit_upper, fit_right, fit_lower) :=
                  fit_box target_buffer (left_, upper, right_, lower) in
                let source_left := (fit_left - left_)%Z in
                let source_upper := (fit_upper - upper)%Z in
                let source_right :=
                  (Z.of_nat source_width - right_ + fit_right)%Z in
                let source_lower :=
                  (Z.of_nat source_height - lower + fit_lower)%Z in
                let num_source_channels := source_channels in
                let rows :=
                  slice_indices fit_upper fit_lower (height target_buffer) in
                let cols :=
                  slice_indices fit_left fit_right (width target_buffer) in
                let chans :=
                  slice_indices 0 (Z.of_nat num_source_channels)
                    (channels target_buffer) in
                let source_rows :=
                  slice_indices source_upper source_lower source_height in
                let source_cols :=
                  slice_indices source_left source_right source_width in
                if broadcastable source_rows.2 rows.2
                   && broadcastable source_cols.2 cols.2
                   && broadcastable source_channels chans.2 then
                  (with_pixels target_buffer
                     (scatter
                        (region_writes target_buffer rows cols chans
                           (fun dy dx c =>
                              pixels source_buffer
                                !! flipped_offset source_buffer
                                     (source_rows.1
                                      + broadcast_index source_rows.2 dy)
                                     (source_cols.1
                                      + broadcast_index source_cols.2 dx)
                                     (broadcast_index source_channels c)))
                        (pixels target_buffer)),
                   Return tt)
                else (target_buffer, Raise (ValueError msg_broadcast))
              else (target_buffer, Raise (TypeError msg_more_channels))
          end
      | _ => (target_buffer, Raise (TypeError msg_source_buffer_or_pixel))
      end
  end.

(** *** The transfer functions in the words of the specification *)

(** Python's [max(a, b)]. *)
Definition fmax (a b : F) : F := if fltb a b then b else a.

Definition linear_to_srgb_component (c : F) : F :=
  if fltb c f0_0031308 then fmul (fmax c f0) f12_92
  else fsub (fmul f1_055 (fpow c f1_0_div_2_4)) f0_055.

Definition srgb_to_linear_component (c : F) : F :=
  if fltb c f0_04045 then fdiv (fmax c f0) f12_92
  else fpow (fdiv (fadd c f0_055) f1_055) f2_4.

(** ** Facts about scatter, gather and masks *)

Section FlatFacts.
Context {A : Type}.
Implicit Types (base : list A) (writes : list (nat * A)) (idx : list nat).

Lemma scatter_length writes base :
  length (scatter writes base) = length base.
Proof.
  revert base. induction writes as [|w ws IH]; intros base; simpl; [done|].
  unfold scatter in *. simpl. rewrite IH. apply length_insert.
Qed.

Lemma scatter_lookup_notin writes base i :
  (forall w, w ∈ writes -> w.1 <> i) ->
  scatter writes base !! i = base !! i.
Proof.
  revert base. induction writes as [|w ws IH]; intros base Hw; [done|].
  unfold scatter in *. simpl. rewrite IH.
  - apply list_lookup_insert_ne. apply Hw. left.
  - intros w' Hin. apply Hw. by right.
Qed.

Lemma scatter_lookup_in writes base i v :
  i < length base ->
  (exists w, w ∈ writes /\ w.1 = i) ->
  (forall w, w ∈ writes -> w.1 = i -> w.2 = v) ->
  scatter writes base !! i = Some v.
Proof.
  revert base. induction writes as [|w ws IH]; intros base Hi Hex Hall.
  - destruct Hex as (w & Hin & _). by apply elem_of_nil in Hin.
  - change (scatter (w :: ws) base) with (scatter ws (<[w.1 := w.2]> base)).
    destruct (decide (Exists (fun w' => w'.1 = i) ws)) as [Hlater|Hnone].
    + apply IH.
      * by rewrite length_insert.
      * apply Exists_exists in Hlater. destruct Hlater as (w' & ? & ?). eauto.
      * intros w' Hin. apply Hall. by right.
    + rewrite scatter_lookup_notin.
      * destruct Hex as (w' & Hin & Hw').
        apply elem_of_cons in Hin as [->|Hin].
        -- rewrite <- Hw'. rewrite list_lookup_insert_eq by (by rewrite Hw').
           f_equal. apply Hall; [left|done].
        -- exfalso. apply Hnone. apply Exists_exists. eauto.
      * intros w' Hin Heq. apply Hnone. apply Exists_exists. eauto.
Qed.

Lemma gather_cons_Some i v idx base :
  base !! i = Some v -> gather (i :: idx) base = v :: gather idx base.
Proof. intros Hv. unfold gather. simpl. by rewrite Hv. Qed.

Lemma elem_of_select idx mask i : i ∈ select idx mask -> i ∈ idx.
Proof.
  unfold select. intros Hin.
  apply list_elem_of_fmap in Hin as ([j m] & -> & Hin).
  apply list_elem_of_filter in Hin as [_ Hin].
  by apply elem_of_zip_l in Hin.
Qed.

Lemma select_cons i m idx mask :
  select (i :: idx) (m :: mask) =
  if m then i :: select idx mask else select idx mask.
Proof.
  unfold select. simpl. rewrite filter_cons. simpl.
  destruct m; by case_decide.
Qed.

Lemma elem_of_select_gather idx base (p : A -> bool) i :
  Forall (fun j => j < length base) idx ->
  i ∈ select idx (p <$> gather idx base) <->
  i ∈ idx /\ exists v, base !! i = Some v /\ p v = true.
Proof.
  induction 1 as [|j idx Hj _ IH].
  - split; [by intros ?%elem_of_nil | by intros [?%elem_of_nil _]].
  - apply lookup_lt_is_Some in Hj as [v Hv].
    rewrite (gather_cons_Some _ _ _ _ Hv), fmap_cons, select_cons.
    destruct (p v) eqn:Hp.
    + rewrite !elem_of_cons, IH. split.
      * intros [->|[? ?]]; eauto.
      * intros [[->|?] ?]; eauto.
    + rewrite elem_of_cons, IH. split.
      * intros [? ?]; eauto.
      * intros [[->|?] (v' & Hv' & Hp')]; [congruence | eauto].
Qed.

Lemma elem_of_zip_gather idx base (g : A -> A) w :
  Forall (fun j => j < length base) idx ->
  w ∈ zip idx (g <$> gather idx base) <->
  w.1 ∈ idx /\ exists v, base !! w.1 = Some v /\ w.2 = g v.
Proof.
  induction 1 as [|j idx Hj _ IH].
  - split; [by intros ?%elem_of_nil | by intros [?%elem_of_nil _]].
  - apply lookup_lt_is_Some in Hj as [v Hv].
    rewrite (gather_cons_Some _ _ _ _ Hv), fmap_cons. simpl.
    rewrite !elem_of_cons, IH. destruct w as [k u]; simpl. split.
    + intros [[= -> ->]|[? ?]]; eauto.
    + intros [[->|?] (v' & Hv' & ->)]; [left; congruence | eauto].
Qed.

Lemma masked_update_lookup_notin view (p : A -> bool) g1 g2 base i :
  i ∉ view -> masked_update view p g1 g2 base !! i = base !! i.
Proof.
  intros Hi. unfold masked_update.
  rewrite !scatter_lookup_notin; [done|..];
    intros [j u] Hw <-; apply elem_of_zip_l, elem_of_select in Hw; done.
Qed.

Lemma masked_update_length view (p : A -> bool) g1 g2 base :
  length (masked_update view p g1 g2 base) = length base.
Proof. unfold masked_update. by rewrite !scatter_length. Qed.

(** Every value addressed by the view is replaced once, through [g1] or [g2]
    as the mask says of the value it had; the others stay. *)
Lemma masked_update_lookup view (p : A -> bool) g1 g2 base i :
  Forall (fun j => j < length base) view ->
  masked_update view p g1 g2 base !! i =
  if bool_decide (i ∈ view)
  then (fun v => if p v then g1 v else g2 v) <$> base !! i
  else base !! i.
Proof.
  intros Hvalid. unfold masked_update.
  set (sel1 := select view (p <$> gather view base)).
  set (base1 := scatter (zip sel1 (g1 <$> gather sel1 base)) base).
  rewrite <- list_fmap_compose.
  set (sel2 := select view ((negb ∘ p) <$> gather view base)).
  assert (Hsel1 : forall j, j ∈ sel1 <->
            j ∈ view /\ exists v, base !! j = Some v /\ p v = true)
    by (intros j; by apply elem_of_select_gather).
  assert (Hsel2 : forall j, j ∈ sel2 <->
            j ∈ view /\ exists v, base !! j = Some v /\ p v = false).
  { intros j. unfold sel2. rewrite elem_of_select_gather by done.
    simpl. split; intros [? (v & ? & Hp)]; split; try done; exists v;
      (split; [done|]); by destruct (p v). }
  assert (Hv1 : Forall (fun j => j < length base) sel1).
  { apply Forall_forall. intros j Hj%elem_of_select.
    by eapply Forall_forall in Hvalid. }
  assert (Hlen1 : length base1 = length base) by apply scatter_length.
  assert (Hv2 : Forall (fun j => j < length base1) sel2).
  { apply Forall_forall. intros j Hj%elem_of_select. rewrite Hlen1.
    by eapply Forall_forall in Hvalid. }
  assert (Hbase1 : forall j, j ∉ sel1 -> base1 !! j = base !! j).
  { intros j Hj. apply scatter_lookup_notin. intros w Hw <-.
    apply elem_of_zip_gather in Hw as [? _]; done. }
  case_bool_decide as Hin.
  - assert (Hi : i < length base) by (by eapply Forall_forall in Hvalid).
    apply lookup_lt_is_Some in Hi as [v Hv]. rewrite Hv. simpl.
    destruct (p v) eqn:Hp.
    + rewrite scatter_lookup_notin.
      * apply scatter_lookup_in.
        -- by eapply lookup_lt_Some.
        -- exists (i, g1 v). split; [|done].
           apply elem_of_zip_gather; [done|]. simpl. split; [|eauto].
           apply Hsel1. eauto.
        -- intros w Hw <-. apply elem_of_zip_gather in Hw; [|done].
           destruct Hw as [_ (v' & Hv' & ->)]. congruence.
      * intros w Hw <-. apply elem_of_zip_gather in Hw as [Hw _]; [|done].
        apply Hsel2 in Hw as [_ (v' & Hv' & Hp')]. congruence.
    + assert (Hnot1 : i ∉ sel1).
      { intros [_ (v' & Hv' & Hp')]%Hsel1. congruence. }
      apply scatter_lookup_in.
      * rewrite Hlen1. by eapply lookup_lt_Some.
      * exists (i, g2 v). split; [|done].
        apply elem_of_zip_gather; [done|]. simpl. split.
        -- apply Hsel2. eauto.
        -- exists v. by rewrite Hbase1.
      * intros w Hw <-. apply elem_of_zip_gather in Hw; [|done].
        destruct Hw as [_ (v' & Hv' & ->)].
        rewrite Hbase1 in Hv' by done. congruence.
  - rewrite scatter_lookup_notin.
    + apply Hbase1. by intros ?%elem_of_select.
    + intros w Hw <-. apply elem_of_zip_gather in Hw as [Hw _]; [|done].
      by apply elem_of_select in Hw.
Qed.

End FlatFacts.

(** ** Facts about offsets and the RGB view *)

Lemma offset_lt (b : pixel_buffer) r x c :
  r < height b -> x < width b -> c < channels b ->
  offset b r x c < height b * width b * channels b.
Proof.
  unfold offset. intros Hr Hx Hc.
  assert (r * width b + x + 1 <= height b * width b) by nia.
  nia.
Qed.

Lemma mul_add_inj n a c a' c' :
  c < n -> c' < n -> a * n + c = a' * n + c' -> a = a' /\ c = c'.
Proof.
  intros Hc Hc' Heq.
  destruct (Nat.lt_trichotomy a a') as [Hlt|[->|Hlt]]; [|lia|].
  - assert ((a + 1) * n <= a' * n) by (apply Nat.mul_le_mono_r; lia). lia.
  - assert ((a' + 1) * n <= a * n) by (apply Nat.mul_le_mono_r; lia). lia.
Qed.

Lemma offset_inj (b : pixel_buffer) r x c r' x' c' :
  x < width b -> x' < width b -> c < channels b -> c' < channels b ->
  offset b r x c = offset b r' x' c' ->
  r = r' /\ x = x' /\ c = c'.
Proof.
  unfold offset. intros Hx Hx' Hc Hc' Heq.
  apply mul_add_inj in Heq as [Hrow ->]; [|done..].
  apply mul_add_inj in Hrow as [-> ->]; done.
Qed.

Lemma slice_indices_prefix (k n : nat) :
  slice_indices 0 (Z.of_nat k) n = (0, k `min` n).
Proof.
  unfold slice_indices, slice_adjust. simpl.
  destruct (Z.of_nat k <? 0)%Z eqn:Hk; f_equal; lia.
Qed.

Lemma elem_of_rgb_only_view (b : pixel_buffer) i :
  i ∈ rgb_only_view b <->
  exists r x c, r < height b /\ x < width b /\ c < channels b /\ c < 3 /\
    i = offset b r x c.
Proof.
  unfold rgb_only_view. change 3%Z with (Z.of_nat 3).
  rewrite slice_indices_prefix. cbn [snd]. split.
  - intros (r & Hrest & Hr%elem_of_seq)%list_elem_of_bind.
    apply list_elem_of_bind in Hrest as (x & Hrest & Hx%elem_of_seq).
    apply list_elem_of_bind in Hrest as (c & Hrest & Hc%elem_of_seq).
    apply list_elem_of_singleton in Hrest.
    exists r, x, c. repeat split; [lia..|done].
  - intros (r & x & c & Hr & Hx & Hc & Hc3 & ->).
    apply list_elem_of_bind. exists r. split; [|apply elem_of_seq; lia].
    apply list_elem_of_bind. exists x. split; [|apply elem_of_seq; lia].
    apply list_elem_of_bind. exists c. split; [|apply elem_of_seq; lia].
    by apply list_elem_of_singleton.
Qed.

Lemma rgb_only_view_valid (b : pixel_buffer) :
  well_formed b ->
  Forall (fun j => j < length (pixels b)) (rgb_only_view b).
Proof.
  intros Hwf. apply Forall_forall. intros j Hj.
  apply elem_of_rgb_only_view in Hj as (r & x & c & ? & ? & ? & _ & ->).
  rewrite Hwf. by apply offset_lt.
Qed.

(** Inside the buffer, the view addresses exactly the channels below 3. *)
Lemma offset_in_rgb_only_view (b : pixel_buffer) r x c :
  r < height b -> x < width b -> c < channels b ->
  offset b r x c ∈ rgb_only_view b <-> c < 3.
Proof.
  intros Hr Hx Hc. rewrite elem_of_rgb_only_view. split.
  - intros (r' & x' & c' & _ & Hx' & Hc' & Hc3 & Heq).
    apply offset_inj in Heq as (_ & _ & ->); done.
  - intros Hc3. exists r, x, c. done.
Qed.

Lemma linear_to_srgb_masked (b : pixel_buffer) :
  buffer_convert_linear_to_srgb b =
  with_pixels b
    (masked_update (rgb_only_view b) (fun v => fltb v f0_0031308)
       (fun s => if fltb s f0 then f0 else fmul s f12_92)
       (fun v => fsub (fmul f1_055 (fpow v f1_0_div_2_4)) f0_055)
       (pixels b)).
Proof. reflexivity. Qed.

Lemma srgb_to_linear_masked (b : pixel_buffer) :
  buffer_convert_srgb_to_linear b =
  with_pixels b
    (masked_update (rgb_only_view b) (fun v => fltb v f0_04045)
       (fun s => if fltb s f0 then f0 else fdiv s f12_92)
       (fun v => fpow (fdiv (fadd v f0_055) f1_055) f2_4)
       (pixels b)).
Proof. reflexivity. Qed.

Lemma buffer_get_masked (b : pixel_buffer) p g1 g2 r x c :
  well_formed b ->
  r < height b -> x < width b -> c < channels b ->
  buffer_get (with_pixels b (masked_update (rgb_only_view b) p g1 g2 (pixels b)))
    r x c =
  if bool_decide (c < 3)
  then (fun v => if p v then g1 v else g2 v) <$> buffer_get b r x c
  else buffer_get b r x c.
Proof.
  intros Hwf Hr Hx Hc. unfold buffer_get, with_pixels, offset. simpl.
  fold (offset b r x c).
  rewrite masked_update_lookup by (by apply rgb_only_view_valid).
  pose proof (offset_in_rgb_only_view b r x c Hr Hx Hc) as Hview.
  repeat case_bool_decide; tauto.
Qed.

(** ** The colorspace converter *)

(** C3: every component of the first three channels of a buffer is replaced
    by the transfer function applied to the value it had.  From linear to
    sRGB that is [max(c, 0) * 12.92] when [c < 0.0031308] and
    [1.055 * c ** (1.0 / 2.4) - 0.055] otherwise; from sRGB to linear it is
    [max(c, 0) / 12.92] when [c < 0.04045] and
    [((c + 0.055) / 1.055) ** 2.4] otherwise.  The clamp at zero is in the
    small branch only.  The code writes 0 for a negative small value where
    the formula has [0 * 12.92] and [0 / 12.92]: these are 0 for floats. *)
Theorem conversions_apply_transfer_functions (b : pixel_buffer) r x c :
  fmul f0 f12_92 = f0 ->
  fdiv f0 f12_92 = f0 ->
  well_formed b ->
  r < height b -> x < width b -> c < channels b -> c < 3 ->
  buffer_get (buffer_convert_linear_to_srgb b) r x c
    = linear_to_srgb_component <$> buffer_get b r x c
  /\ buffer_get (buffer_convert_srgb_to_linear b) r x c
    = srgb_to_linear_component <$> buffer_get b r x c.
Proof.
  intros Hmul Hdiv Hwf Hr Hx Hc Hc3.
  rewrite linear_to_srgb_masked, srgb_to_linear_masked.
  rewrite !buffer_get_masked by done.
  rewrite bool_decide_eq_true_2 by done.
  split; destruct (buffer_get b r x c) as [v|]; simpl; [|done| |done]; f_equal.
  - unfold linear_to_srgb_component, fmax.
    destruct (fltb v f0_0031308); [|done].
    destruct (fltb v f0); by rewrite ?Hmul.
  - unfold srgb_to_linear_component, fmax.
    destruct (fltb v f0_04045); [|done].
    destruct (fltb v f0); by rewrite ?Hdiv.
Qed.

(** C10: in a buffer of four channels neither conversion changes a value of
    the fourth channel. *)
Theorem conversions_keep_alpha (b : pixel_buffer) r x :
  channels b = 4 ->
  x < width b ->
  buffer_get (buffer_convert_linear_to_srgb b) r x 3 = buffer_get b r x 3
  /\ buffer_get (buffer_convert_srgb_to_linear b) r x 3 = buffer_get b r x 3.
Proof.
  intros Hch Hx.
  assert (Hout : offset b r x 3 ∉ rgb_only_view b).
  { intros (r' & x' & c' & _ & Hx' & Hc' & Hc3 & Heq)%elem_of_rgb_only_view.
    apply offset_inj in Heq as (_ & _ & Heq); lia. }
  rewrite linear_to_srgb_masked, srgb_to_linear_masked.
  unfold buffer_get, with_pixels, offset in *. simpl.
  by rewrite !masked_update_lookup_notin.
Qed.

(** ** Acquisition and persistence *)

Lemma bind_datablock {B} (k : image -> bpy B) images img i :
  images !! img = Some i -> (datablock img ≫= k) images = k i images.
Proof.
  intros Hi. unfold mbind, bpy_bind, datablock. by rewrite Hi.
Qed.

Lemma bind_return {B C} (m : bpy B) (k : B -> bpy C) images images' b :
  m images = (images', Return b) -> (m ≫= k) images = k b images'.
Proof. intros Hm. unfold mbind, bpy_bind. by rewrite Hm. Qed.

Lemma bind_raise {B C} (m : bpy B) (k : B -> bpy C) images images' e :
  m images = (images', Raise e) -> (m ≫= k) images = (images', Raise e).
Proof. intros Hm. unfold mbind, bpy_bind. by rewrite Hm. Qed.

(** One step of a computation whose first action returns, as [Hm] says. *)
Ltac step Hm :=
  match goal with
  | |- context [@mbind bpy _ ?B ?C ?k ?m ?images] =>
      rewrite (bind_return (B:=B) (C:=C) m k images _ _ Hm)
  end.

(** Reading a datablock that is there. *)
Ltac read_datablock Hi :=
  match goal with
  | |- context [@mbind bpy _ image ?B ?k (datablock ?img) ?images] =>
      rewrite (bind_datablock (B:=B) k images img _ Hi)
  end.

Lemma sRGB_not_linear : "sRGB" ∉ linear_colorspaces.
Proof.
  unfold linear_colorspaces. rewrite !elem_of_union, !elem_of_singleton.
  intros [[?|?]|?]; discriminate.
Qed.

Lemma not_supported (name : string) :
  name ∉ supported_colorspaces ->
  name <> "sRGB" /\ name ∉ linear_colorspaces.
Proof.
  unfold supported_colorspaces. rewrite not_elem_of_union, elem_of_singleton.
  tauto.
Qed.

(** What [get_pixel_buffer] does with an image of the host whose colorspace
    is not supported. *)
Lemma get_pixel_buffer_unsupported images img i atlas_colorspace :
  images !! img = Some i ->
  image_well_formed i ->
  colorspace_name i ∉ supported_colorspaces ->
  get_pixel_buffer img atlas_colorspace images =
  (images,
   if bool_decide (atlas_colorspace = "sRGB") then
     Raise (TypeError msg_unsupported_image_colorspace)
   else if bool_decide (atlas_colorspace ∈ linear_colorspaces) then
     Return None
   else Raise (TypeError msg_unsupported_atlas_colorspace)).
Proof.
  intros Hi Hwf [Hs Hl]%not_supported.
  unfold get_pixel_buffer. read_datablock Hi.
  unfold image_well_formed in Hwf.
  destruct (size i) as [w h]; simpl in Hwf.
  unfold __get_buffer_internal.
  unfold mbind at 1. unfold bpy_bind at 1. read_datablock Hi.
  cbn [mbind bpy_bind mret bpy_ret].
  rewrite (bool_decide_eq_true_2 _ Hwf). cbn [negb].
  rewrite (bool_decide_eq_false_2 _ Hs), (bool_decide_eq_false_2 _ Hl).
  repeat case_bool_decide; done.
Qed.

(** C4: with a linear atlas colorspace, an image whose colorspace is not
    supported makes [get_pixel_buffer] fall off its end: it returns [None]
    and raises nothing, where the sRGB branch raises [TypeError]. *)
Theorem get_pixel_buffer_linear_atlas_no_error images img i atlas_colorspace :
  images !! img = Some i ->
  image_well_formed i ->
  colorspace_name i ∉ supported_colorspaces ->
  atlas_colorspace ∈ linear_colorspaces ->
  get_pixel_buffer img atlas_colorspace images = (images, Return None).
Proof.
  intros Hi Hwf Hcs Hatlas.
  rewrite (get_pixel_buffer_unsupported _ _ _ _ Hi Hwf Hcs).
  assert (atlas_colorspace <> "sRGB")
    by (intros ->; by apply sRGB_not_linear).
  by rewrite bool_decide_eq_false_2, bool_decide_eq_true_2.
Qed.

Lemma get_pixel_buffer_sRGB_atlas_raises images img i :
  images !! img = Some i ->
  colorspace_name i ∉ supported_colorspaces ->
  exists e, get_pixel_buffer img "sRGB" images = (images, Raise e).
Proof.
  intros Hi [Hs Hl]%not_supported.
  unfold get_pixel_buffer. read_datablock Hi.
  destruct (size i) as [w h].
  unfold __get_buffer_internal.
  unfold mbind at 1. unfold bpy_bind at 1. read_datablock Hi.
  cbn [mbind bpy_bind mret bpy_ret].
  case_bool_decide; cbn [negb]; [|by eexists].
  rewrite (bool_decide_eq_false_2 _ Hs), (bool_decide_eq_false_2 _ Hl).
  rewrite bool_decide_eq_true_2 by done. by eexists.
Qed.

Lemma fresh_handle_unused (images : gmap nat image) :
  images !! fresh (dom images) = None.
Proof. apply not_elem_of_dom, is_fresh. Qed.

Lemma image_copy_returns images img i :
  images !! img = Some i ->
  image_copy img images
    = (<[fresh (dom images) := i]> images, Return (fresh (dom images))).
Proof. intros Hi. unfold image_copy. by read_datablock Hi. Qed.

Lemma image_scale_returns images img i width height :
  images !! img = Some i ->
  image_scale img width height images
    = (<[img := scaled i width height]> images, Return tt).
Proof. intros Hi. unfold image_scale. by read_datablock Hi. Qed.

Lemma images_remove_returns images img i :
  images !! img = Some i ->
  images_remove img images = (delete img images, Return tt).
Proof. intros Hi. unfold images_remove. by read_datablock Hi. Qed.

Lemma get_pixel_buffer_sRGB images img i :
  images !! img = Some i ->
  image_well_formed i ->
  colorspace_name i = "sRGB" ->
  get_pixel_buffer img "sRGB" images
    = (images,
       Return (Some (PixelBuffer (size i).2 (size i).1 (img_channels i)
                       (img_pixels i)))).
Proof.
  intros Hi Hwf Hcs.
  unfold get_pixel_buffer. read_datablock Hi.
  unfold image_well_formed in Hwf.
  destruct (size i) as [w h]; simpl in Hwf.
  unfold __get_buffer_internal.
  unfold mbind at 1. unfold bpy_bind at 1. read_datablock Hi.
  cbn [mbind bpy_bind mret bpy_ret].
  rewrite (bool_decide_eq_true_2 _ Hwf). cbn [negb].
  by rewrite !bool_decide_eq_true_2.
Qed.

(** The copy of the image, scaled, under its new handle. *)
Lemma copy_and_scale {B} (k : nat -> bpy B) images img i (new_size : nat * nat) :
  images !! img = Some i ->
  (image_copy img ≫= fun copy =>
     image_scale copy new_size.1 new_size.2 ≫= fun _ => k copy) images
  = k (fresh (dom images))
      (<[fresh (dom images) := scaled i new_size.1 new_size.2]> images).
Proof.
  intros Hi.
  step (image_copy_returns _ _ _ Hi).
  step (image_scale_returns (<[fresh (dom images) := i]> images)
          (fresh (dom images)) i new_size.1 new_size.2
          (lookup_insert_eq _ _ _)).
  by rewrite insert_insert_eq.
Qed.

(** C6: when the colorspace of the image is not supported,
    [get_pixel_buffer] raises inside [get_resized_pixel_buffer] and the
    scaled copy, which was not among the images before, is among them when
    the exception leaves the function: nothing removes it. *)
Theorem get_resized_pixel_buffer_leaves_copy images img i (new_size : nat * nat) :
  images !! img = Some i ->
  colorspace_name i ∉ supported_colorspaces ->
  exists e,
    get_resized_pixel_buffer img new_size images
      = (<[fresh (dom images) := scaled i new_size.1 new_size.2]> images, Raise e)
    /\ images !! fresh (dom images) = None.
Proof.
  intros Hi Hcs. unfold get_resized_pixel_buffer.
  rewrite (copy_and_scale _ _ _ _ _ Hi).
  destruct (get_pixel_buffer_sRGB_atlas_raises
              (<[fresh (dom images) := scaled i new_size.1 new_size.2]> images)
              (fresh (dom images)) (scaled i new_size.1 new_size.2)) as [e He].
  { apply lookup_insert_eq. }
  { done. }
  exists e. split; [|apply fresh_handle_unused].
  unfold mbind, bpy_bind. by rewrite He.
Qed.

(** X13: for an sRGB image that the host scales to as many values as the
    new size asks for, [get_resized_pixel_buffer] returns the buffer of the
    scaled copy, the copy is removed, and the images are as they were: the
    original is neither resized nor reloaded. *)
Lemma get_resized_pixel_buffer_removes_copy images img i (new_size : nat * nat) :
  images !! img = Some i ->
  colorspace_name i = "sRGB" ->
  length (scale_pixels i new_size.1 new_size.2)
    = new_size.2 * new_size.1 * img_channels i ->
  get_resized_pixel_buffer img new_size images
    = (images,
       Return (Some (PixelBuffer new_size.2 new_size.1 (img_channels i)
                       (scale_pixels i new_size.1 new_size.2)))).
Proof.
  intros Hi Hcs Hlen. unfold get_resized_pixel_buffer.
  rewrite (copy_and_scale _ _ _ _ _ Hi).
  set (copy := fresh (dom images)).
  set (images' := <[copy := scaled i new_size.1 new_size.2]> images).
  assert (Hcopy : images' !! copy = Some (scaled i new_size.1 new_size.2))
    by apply lookup_insert_eq.
  step (get_pixel_buffer_sRGB _ _ _ Hcopy Hlen Hcs).
  step (images_remove_returns _ _ _ Hcopy).
  unfold images', copy.
  rewrite delete_insert_eq, delete_id by apply fresh_handle_unused.
  done.
Qed.

(** ** Persistence *)

(** C8: [write_pixel_buffer] raises its [RuntimeError] exactly when the shape
    of the buffer is not [(height, width, channels)] of the image, and then
    writes nothing; when the shapes are equal it raises nothing and the
    pixels of the image become the flattened buffer. *)
Theorem write_pixel_buffer_shape_contract images img i (buffer : pixel_buffer) :
  images !! img = Some i ->
  image_well_formed i ->
  well_formed buffer ->
  let image_shape := ((size i).2, (size i).1, img_channels i) in
  (shape buffer = image_shape ->
     write_pixel_buffer img buffer images
       = (<[img := {| size := size i;
                      img_channels := img_channels i;
                      colorspace_name := colorspace_name i;
                      img_pixels := pixels buffer |}]> images,
          Return tt))
  /\ (shape buffer <> image_shape ->
     write_pixel_buffer img buffer images
       = (images, Raise (RuntimeError msg_shape_mismatch))).
Proof.
  intros Hi Hwi Hwb image_shape. subst image_shape.
  unfold write_pixel_buffer. read_datablock Hi.
  unfold image_well_formed in Hwi. unfold well_formed in Hwb.
  destruct (size i) as [w h] eqn:Hsize. simpl in *.
  split; intros Hshape.
  - rewrite bool_decide_eq_true_2 by done.
    unfold __write_pixel_buffer_internal, pixels_foreach_set.
    read_datablock Hi.
    unfold shape in Hshape. injection Hshape as Hh Hw Hc.
    rewrite bool_decide_eq_true_2 by congruence.
    unfold images_update. by rewrite Hsize.
  - by rewrite bool_decide_eq_false_2.
Qed.

(** ** Pasting: what an assignment to a region writes *)

Lemma flipped_offset_lt (b : pixel_buffer) y x c :
  y < height b -> x < width b -> c < channels b ->
  flipped_offset b y x c < height b * width b * channels b.
Proof. intros. apply offset_lt; lia. Qed.

Lemma flipped_offset_inj (b : pixel_buffer) y x c y' x' c' :
  y < height b -> y' < height b ->
  x < width b -> x' < width b -> c < channels b -> c' < channels b ->
  flipped_offset b y x c = flipped_offset b y' x' c' ->
  y = y' /\ x = x' /\ c = c'.
Proof.
  intros Hy Hy' Hx Hx' Hc Hc' Heq.
  apply offset_inj in Heq as (? & ? & ?); [|done..].
  repeat split; [lia|done..].
Qed.

Lemma slice_indices_nonneg (start stop : Z) (n : nat) :
  (0 <= start)%Z -> (0 <= stop)%Z ->
  slice_indices start stop n
    = (Z.to_nat (start `min` Z.of_nat n),
       Z.to_nat (stop `min` Z.of_nat n - start `min` Z.of_nat n)).
Proof.
  intros Ha Hb. unfold slice_indices, slice_adjust.
  destruct (start <? 0)%Z eqn:Hs; [lia|].
  destruct (stop <? 0)%Z eqn:Ht; [lia|]. done.
Qed.

Lemma slice_indices_within (start stop : Z) (n : nat) :
  (0 <= start)%Z -> (start <= stop)%Z -> (stop <= Z.of_nat n)%Z ->
  slice_indices start stop n = (Z.to_nat start, Z.to_nat (stop - start)).
Proof.
  intros Ha Hab Hb. rewrite slice_indices_nonneg by lia.
  by rewrite !Z.min_l by lia.
Qed.

(** The indices that a slice with bounds that are not negative selects. *)
Lemma slice_indices_mem (start stop : Z) (n y : nat) :
  (0 <= start)%Z -> (0 <= stop)%Z -> y < n ->
  (slice_indices start stop n).1 <= y
    < (slice_indices start stop n).1 + (slice_indices start stop n).2
  <-> (start <= Z.of_nat y < stop)%Z.
Proof.
  intros Ha Hb Hy. rewrite slice_indices_nonneg by done. cbn [fst snd].
  destruct (Z.le_ge_cases start (Z.of_nat n)),
           (Z.le_ge_cases stop (Z.of_nat n));
    rewrite ?(Z.min_l start), ?(Z.min_r start),
            ?(Z.min_l stop), ?(Z.min_r stop) by lia; lia.
Qed.

Lemma slice_indices_bounds (start stop : Z) (n : nat) :
  (slice_indices start stop n).1 + (slice_indices start stop n).2 <= n.
Proof.
  unfold slice_indices, slice_adjust. cbn [fst snd].
  destruct (start <? 0)%Z eqn:Hs, (stop <? 0)%Z eqn:Ht; lia.
Qed.

Lemma elem_of_region_writes (t : pixel_buffer) rows cols chans value w :
  w ∈ region_writes t rows cols chans value <->
  exists dy dx dc, dy < rows.2 /\ dx < cols.2 /\ dc < chans.2 /\
    value dy dx dc = Some w.2 /\
    w.1 = flipped_offset t (rows.1 + dy) (cols.1 + dx) (chans.1 + dc).
Proof.
  unfold region_writes. split.
  - intros (dy & Hrest & Hy%elem_of_seq)%list_elem_of_bind.
    apply list_elem_of_bind in Hrest as (dx & Hrest & Hx%elem_of_seq).
    apply list_elem_of_bind in Hrest as (dc & Hrest & Hc%elem_of_seq).
    exists dy, dx, dc.
    destruct (value dy dx dc) as [v|]; [|by apply elem_of_nil in Hrest].
    apply list_elem_of_singleton in Hrest as ->. simpl.
    split_and!; (lia || done).
  - intros (dy & dx & dc & Hy & Hx & Hc & Hv & Hw).
    apply list_elem_of_bind. exists dy. split; [|apply elem_of_seq; lia].
    apply list_elem_of_bind. exists dx. split; [|apply elem_of_seq; lia].
    apply list_elem_of_bind. exists dc. split; [|apply elem_of_seq; lia].
    rewrite Hv. apply list_elem_of_singleton.
    destruct w as [o v]; simpl in *. by rewrite Hw.
Qed.

(** Inside the region every value of the view becomes the assigned one, and
    outside of it every value stays. *)
Lemma region_assign_lookup (t : pixel_buffer) rows cols chans value y x c :
  well_formed t ->
  rows.1 + rows.2 <= height t ->
  cols.1 + cols.2 <= width t ->
  chans.1 + chans.2 <= channels t ->
  (forall dy dx dc, dy < rows.2 -> dx < cols.2 -> dc < chans.2 ->
     is_Some (value dy dx dc)) ->
  y < height t -> x < width t -> c < channels t ->
  view_get
    (with_pixels t (scatter (region_writes t rows cols chans value) (pixels t)))
    y x c
  = if bool_decide (rows.1 <= y < rows.1 + rows.2
                    /\ cols.1 <= x < cols.1 + cols.2
                    /\ chans.1 <= c < chans.1 + chans.2)
    then value (y - rows.1) (x - cols.1) (c - chans.1)
    else view_get t y x c.
Proof.
  intros Hwf Hrows Hcols Hchans Hvalue Hy Hx Hc.
  unfold view_get, with_pixels, flipped_offset, offset. simpl.
  fold (offset t (height t - 1 - y) x c). fold (flipped_offset t y x c).
  assert (Hsame : forall dy dx dc,
            dy < rows.2 -> dx < cols.2 -> dc < chans.2 ->
            flipped_offset t (rows.1 + dy) (cols.1 + dx) (chans.1 + dc)
              = flipped_offset t y x c ->
            rows.1 + dy = y /\ cols.1 + dx = x /\ chans.1 + dc = c).
  { intros dy dx dc ? ? ? Heq.
    apply flipped_offset_inj in Heq; [done|lia..]. }
  case_bool_decide as Hin.
  - destruct Hin as (Hiy & Hix & Hic).
    destruct (Hvalue (y - rows.1) (x - cols.1) (c - chans.1)) as [v Hv];
      [lia..|].
    rewrite Hv. apply scatter_lookup_in.
    + rewrite Hwf. by apply flipped_offset_lt.
    + exists (flipped_offset t y x c, v). split; [|done].
      apply elem_of_region_writes.
      exists (y - rows.1), (x - cols.1), (c - chans.1). simpl.
      split_and!; [lia..|done|f_equal; lia].
    + intros w (dy & dx & dc & ? & ? & ? & Hw & Heq)%elem_of_region_writes Hw1.
      rewrite Heq in Hw1. apply Hsame in Hw1 as (<- & <- & <-); [|done..].
      replace (rows.1 + dy - rows.1) with dy in Hv by lia.
      replace (cols.1 + dx - cols.1) with dx in Hv by lia.
      replace (chans.1 + dc - chans.1) with dc in Hv by lia.
      congruence.
  - apply scatter_lookup_notin.
    intros w (dy & dx & dc & ? & ? & ? & _ & Heq)%elem_of_region_writes Hw1.
    rewrite Heq in Hw1. apply Hsame in Hw1; [|done..]. lia.
Qed.

(** A tuple or list is taken for a pixel exactly when it is no longer than
    the target has channels; otherwise [TypeError] is raised. *)
Lemma sequence_source_is_pixel (target : pixel_buffer) (items : list F) :
  source_is_pixel target (Sequence items) =
  if bool_decide (length items <= channels target) then Return true
  else Raise (TypeError msg_source_pixel).
Proof. reflexivity. Qed.

(** ** Pasting a pixel color *)

(** A color no longer than the target has channels, pasted into a box: the
    call returns, and the values of the view that change are those of the
    first [length items] channels in the rows and columns that the slices
    [upper:lower] and [left:right] of the fitted box select. *)
Lemma color_paste_writes (target : pixel_buffer) (items : list F)
    (left_ upper right_ lower : Z) :
  well_formed target ->
  length items <= channels target ->
  let rows :=
    slice_indices (upper `max` 0)
      (lower `min` (Z.of_nat (height target) + 1)) (height target) in
  let cols :=
    slice_indices (left_ `max` 0)
      (right_ `min` (Z.of_nat (width target) + 1)) (width target) in
  exists target',
    pixel_buffer_paste target (Sequence items) [left_; upper; right_; lower]
      = (target', Return tt)
    /\ shape target' = shape target
    /\ forall y x c,
         y < height target -> x < width target -> c < channels target ->
         view_get target' y x c
         = if bool_decide (rows.1 <= y < rows.1 + rows.2
                           /\ cols.1 <= x < cols.1 + cols.2
                           /\ c < length items)
           then items !! c
           else view_get target y x c.
Proof.
  intros Hwf Hlen rows cols.
  unfold pixel_buffer_paste.
  rewrite sequence_source_is_pixel, bool_decide_eq_true_2 by done.
  cbn [fit_box source_len source_values].
  fold rows. fold cols.
  rewrite slice_indices_prefix.
  replace (length items `min` channels target) with (length items) by lia.
  cbn [snd]. unfold broadcastable at 1.
  rewrite (bool_decide_eq_true_2 (length items = length items)) by done.
  cbn [orb]. eexists. split; [done|]. split; [done|].
  intros y x c Hy Hx Hc.
  rewrite region_assign_lookup; try done.
  - cbn [fst snd]. repeat case_bool_decide; try done; try lia.
    unfold broadcast_index. case_bool_decide; [|f_equal; lia].
    f_equal. lia.
  - apply slice_indices_bounds.
  - apply slice_indices_bounds.
  - intros dy dx dc _ _ Hdc. cbn [snd] in Hdc.
    apply lookup_lt_is_Some. unfold broadcast_index.
    case_bool_decide; lia.
Qed.

(** X16: a color no longer than the target has channels, pasted into a box
    whose right and lower bounds are not negative, replaces the first
    channels, as many as the color has components, of the pixels of the
    fitted box, and every other value stays. *)
Lemma color_paste_in_box (target : pixel_buffer) (items : list F)
    (left_ upper right_ lower : Z) :
  well_formed target ->
  length items <= channels target ->
  (0 <= right_)%Z -> (0 <= lower)%Z ->
  exists target',
    pixel_buffer_paste target (Sequence items) [left_; upper; right_; lower]
      = (target', Return tt)
    /\ shape target' = shape target
    /\ forall y x c,
         y < height target -> x < width target -> c < channels target ->
         view_get target' y x c
         = if bool_decide
                ((left_ `max` 0 <= Z.of_nat x
                    < right_ `min` (Z.of_nat (width target) + 1))%Z
                 /\ (upper `max` 0 <= Z.of_nat y
                       < lower `min` (Z.of_nat (height target) + 1))%Z
                 /\ c < length items)
           then items !! c
           else view_get target y x c.
Proof.
  intros Hwf Hlen Hr Hlo.
  destruct (color_paste_writes target items left_ upper right_ lower Hwf Hlen)
    as (target' & Hpaste & Hshape & Hget).
  exists target'. split; [done|]. split; [done|].
  intros y x c Hy Hx Hc. rewrite Hget by done.
  match goal with
  | |- (if bool_decide ?P then _ else _) = (if bool_decide ?Q then _ else _) =>
      rewrite (bool_decide_ext P Q); [done|]
  end.
  rewrite !slice_indices_mem by lia. tauto.
Qed.

(** X18: a pixel color pasted with a third argument that does not have four
    coordinates is refused with the [TypeError] of the missing box, and the
    target stays as it was. *)
Lemma color_paste_needs_box (target : pixel_buffer) (items : list F)
    (corner_or_box : list Z) :
  length items <= channels target ->
  length corner_or_box <> 4 ->
  pixel_buffer_paste target (Sequence items) corner_or_box
    = (target, Raise (TypeError msg_box_required)).
Proof.
  intros Hlen Hbox. unfold pixel_buffer_paste.
  rewrite sequence_source_is_pixel, bool_decide_eq_true_2 by done.
  by destruct corner_or_box as [|a [|b [|c [|d [|e cb]]]]].
Qed.

(** ** Pasting a buffer that does not reach over the right or lower edge *)

Lemma broadcast_index_lt n i : i < n -> broadcast_index n i = i.
Proof. unfold broadcast_index. case_bool_decide; lia. Qed.

Lemma broadcastable_refl n : broadcastable n n = true.
Proof. unfold broadcastable. by rewrite bool_decide_eq_true_2. Qed.

(** X21: a buffer pasted at a corner, which may lie to the left of the
    target or above it: when the box of the buffer ends inside the target,
    the part of the buffer that lies over the target is copied there, in the
    channels of the source, and every other value stays. *)
Lemma buffer_paste_at_corner (target : pixel_buffer)
    source_height source_width source_channels (data : list F)
    (left_ upper : Z) :
  let source :=
    PixelBuffer source_height source_width source_channels data in
  well_formed target ->
  well_formed source ->
  source_channels <= channels target ->
  (0 <= left_ + Z.of_nat source_width <= Z.of_nat (width target))%Z ->
  (0 <= upper + Z.of_nat source_height <= Z.of_nat (height target))%Z ->
  exists target',
    pixel_buffer_paste target
      (Ndarray [source_height; source_width; source_channels] data)
      [left_; upper]
      = (target', Return tt)
    /\ shape target' = shape target
    /\ forall y x c,
         y < height target -> x < width target -> c < channels target ->
         view_get target' y x c
         = if bool_decide
                ((left_ `max` 0 <= Z.of_nat x
                    < left_ + Z.of_nat source_width)%Z
                 /\ (upper `max` 0 <= Z.of_nat y
                       < upper + Z.of_nat source_height)%Z
                 /\ c < source_channels)
           then view_get source
                  (Z.to_nat (Z.of_nat y - upper))
                  (Z.to_nat (Z.of_nat x - left_)) c
           else view_get target y x c.
Proof.
  intros source Hwf Hwfs Hc Hcols Hrows.
  unfold pixel_buffer_paste, source_is_pixel. cbn [length bool_decide].
  rewrite (bool_decide_eq_true_2 (3 = 3)) by done.
  rewrite (bool_decide_eq_true_2 (source_channels <= channels target))
    by done.
  unfold fit_box.
  rewrite (Z.min_l (left_ + Z.of_nat source_width)) by lia.
  rewrite (Z.min_l (upper + Z.of_nat source_height)) by lia.
  replace (Z.of_nat source_width - (left_ + Z.of_nat source_width)
           + (left_ + Z.of_nat source_width))%Z
    with (Z.of_nat source_width) by lia.
  replace (Z.of_nat source_height - (upper + Z.of_nat source_height)
           + (upper + Z.of_nat source_height))%Z
    with (Z.of_nat source_height) by lia.
  set (fit_left := (left_ `max` 0)%Z).
  set (fit_upper := (upper `max` 0)%Z).
  assert (Hfl : (0 <= fit_left /\ left_ <= fit_left
                 /\ fit_left <= left_ + Z.of_nat source_width)%Z)
    by (unfold fit_left; lia).
  assert (Hfu : (0 <= fit_upper /\ upper <= fit_upper
                 /\ fit_upper <= upper + Z.of_nat source_height)%Z)
    by (unfold fit_upper; lia).
  clearbody fit_left fit_upper.
  rewrite slice_indices_prefix.
  rewrite !slice_indices_within by lia. cbn [fst snd].
  replace (source_channels `min` channels target) with source_channels by lia.
  replace (Z.to_nat (Z.of_nat source_height - (fit_upper - upper)))
    with (Z.to_nat (upper + Z.of_nat source_height - fit_upper)) by lia.
  replace (Z.to_nat (Z.of_nat source_width - (fit_left - left_)))
    with (Z.to_nat (left_ + Z.of_nat source_width - fit_left)) by lia.
  rewrite !broadcastable_refl. cbn [andb].
  eexists. split; [done|]. split; [done|].
  intros y x c Hy Hx Hch.
  rewrite region_assign_lookup; try done; cbn [fst snd]; try lia.
  - match goal with
    | |- (if bool_decide ?P then _ else _)
         = (if bool_decide ?Q then _ else _) =>
        destruct (decide Q) as [HQ|HQ];
          [rewrite (bool_decide_eq_true_2 P), (bool_decide_eq_true_2 Q)
             by (done || lia)
          |rewrite (bool_decide_eq_false_2 P), (bool_decide_eq_false_2 Q)
             by (done || lia); done]
    end.
    unfold view_get.
    rewrite !broadcast_index_lt by lia.
    f_equal. f_equal; lia.
  - intros dy dx dc Hdy Hdx Hdc.
    rewrite !broadcast_index_lt by lia.
    apply lookup_lt_is_Some.
    unfold well_formed in Hwfs. cbn in Hwfs. cbn [pixels]. rewrite Hwfs.
    apply (flipped_offset_lt source); simpl; lia.
Qed.

(** ** Pasting: the kind of the source *)

(** C5: a one-dimensional array is taken for a pixel whatever its length,
    as the target's channels are compared with the number of dimensions of
    the source, which is 1.  When it is longer than the target has channels
    no [TypeError] of the source kind is raised: the paste into a box ends in
    numpy's [ValueError], with the target as it was. *)
Theorem one_dimensional_array_is_pixel (target : pixel_buffer) n (data : list F)
    (left_ upper right_ lower : Z) :
  1 <= channels target ->
  channels target < n ->
  source_is_pixel target (Ndarray [n] data) = Return true
  /\ pixel_buffer_paste target (Ndarray [n] data) [left_; upper; right_; lower]
     = (target, Raise (ValueError msg_broadcast)).
Proof.
  intros Hc Hn.
  assert (Hkind : source_is_pixel target (Ndarray [n] data) = Return true).
  { unfold source_is_pixel. simpl.
    by rewrite (bool_decide_eq_true_2 (1 <= channels target)). }
  split; [done|].
  unfold pixel_buffer_paste. rewrite Hkind.
  destruct (fit_box target (left_, upper, right_, lower)) as [[[l u] r] lo].
  cbn [source_len hd]. rewrite slice_indices_prefix. cbn [snd].
  unfold broadcastable.
  rewrite !bool_decide_eq_false_2 by lia. done.
Qed.

(** ** Pasting: more channels in the source than in the target *)

(** C7: a three-dimensional source with more channels than the target makes
    [pixel_buffer_paste] raise [TypeError] and leaves the target as it was;
    with a corner or a box, the error is the one about the channels. *)
Theorem paste_rejects_more_channels (target : pixel_buffer)
    source_height source_width source_channels (data : list F)
    (corner_or_box : list Z) :
  channels target < source_channels ->
  let source := Ndarray [source_height; source_width; source_channels] data in
  (pixel_buffer_paste target source corner_or_box).1 = target
  /\ is_TypeError (pixel_buffer_paste target source corner_or_box).2
  /\ (length corner_or_box = 2 \/ length corner_or_box = 4 ->
      pixel_buffer_paste target source corner_or_box
        = (target, Raise (TypeError msg_more_channels))).
Proof.
  intros Hc source. subst source.
  unfold pixel_buffer_paste, source_is_pixel. simpl.
  rewrite (bool_decide_eq_false_2 (source_channels <= channels target))
    by lia.
  destruct corner_or_box as [|a [|b [|c [|d [|e cb]]]]]; simpl;
    (split; [done|]); (split; [done|]); intros [?|?]; done.
Qed.

(** ** Pasting a buffer that reaches over the right edge *)

(** C1: a buffer pasted at a corner inside the target that reaches over the
    right edge of the target is not copied in part.  The fitted box ends at
    [width + 1], the slice of the target ends at [width], the slice of the
    source is one column wider than it, and the assignment raises numpy's
    [ValueError] with the target as it was. *)
Theorem paste_over_right_edge_raises (target : pixel_buffer)
    source_height source_width source_channels (data : list F)
    (left_ upper : Z) :
  source_channels <= channels target ->
  (0 <= left_ < Z.of_nat (width target))%Z ->
  (Z.of_nat (width target) < left_ + Z.of_nat source_width)%Z ->
  pixel_buffer_paste target
    (Ndarray [source_height; source_width; source_channels] data)
    [left_; upper]
  = (target, Raise (ValueError msg_broadcast)).
Proof.
  intros Hc Hleft Hover.
  unfold pixel_buffer_paste, source_is_pixel. cbn [length bool_decide].
  rewrite (bool_decide_eq_true_2 (3 = 3)) by done.
  rewrite (bool_decide_eq_true_2 (source_channels <= channels target))
    by done.
  unfold fit_box.
  rewrite (slice_indices_nonneg (left_ `max` 0)) by lia.
  rewrite (slice_indices_nonneg (left_ `max` 0 - left_)) by lia.
  cbn [snd].
  replace (broadcastable _ (Z.to_nat (_ - (left_ `max` 0) `min` _)))
    with false; [by rewrite andb_false_r|].
  symmetry. unfold broadcastable.
  rewrite !bool_decide_eq_false_2 by lia. done.
Qed.

(** ** Blank buffers *)

Lemma join_replicate_length (n : nat) (l : list F) :
  length (mjoin (replicate n l)) = n * length l.
Proof.
  induction n as [|n IH]; [done|].
  cbn [replicate]. change (mjoin (l :: replicate n l))
    with (l ++ mjoin (replicate n l))%list. rewrite length_app, IH. lia.
Qed.

Lemma join_replicate_lookup (n : nat) (l : list F) i c :
  i < n -> c < length l ->
  mjoin (replicate n l) !! (i * length l + c) = l !! c.
Proof.
  revert i. induction n as [|n IH]; intros i Hi Hc; [lia|].
  cbn [replicate]. change (mjoin (l :: replicate n l))
    with (l ++ mjoin (replicate n l))%list. destruct i as [|i].
  - by rewrite lookup_app_l.
  - rewrite lookup_app_r by lia.
    replace (S i * length l + c - length l) with (i * length l + c) by lia.
    apply IH; lia.
Qed.

(** X1: [new_pixel_buffer] raises its [TypeError] exactly when the color has
    no component or more than four. *)
Theorem new_pixel_buffer_rejects (size : nat * nat) (color : list F) :
  new_pixel_buffer size color = Raise (TypeError msg_color_components)
  <-> length color = 0 \/ 4 < length color.
Proof.
  unfold new_pixel_buffer. destruct size as [w h].
  destruct (bool_decide (4 < length color)) eqn:Hmany;
    destruct (bool_decide (length color = 0)) eqn:Hnone; cbn [orb];
    try apply bool_decide_eq_true_1 in Hmany;
    try apply bool_decide_eq_true_1 in Hnone;
    try apply bool_decide_eq_false_1 in Hmany;
    try apply bool_decide_eq_false_1 in Hnone;
    (split; [intros Heq; try discriminate; auto | intros [?|?]; try done; lia]).
Qed.

(** X2: with a color of one to four components, [new_pixel_buffer] returns a
    buffer of the shape (height, width, number of components) whose contents
    are as long as the shape says and in which every pixel is the color. *)
Theorem new_pixel_buffer_filled (w h : nat) (color : list F) :
  1 <= length color <= 4 ->
  exists b,
    new_pixel_buffer (w, h) color = Return b
    /\ shape b = (h, w, length color)
    /\ well_formed b
    /\ forall r x c, r < h -> x < w -> c < length color ->
         buffer_get b r x c = color !! c.
Proof.
  intros Hlen. unfold new_pixel_buffer.
  rewrite (bool_decide_eq_false_2 (4 < length color)) by lia.
  rewrite (bool_decide_eq_false_2 (length color = 0)) by lia. cbn [orb].
  eexists. split; [done|]. split; [done|]. split.
  - unfold well_formed. cbn. apply join_replicate_length.
  - intros r x c Hr Hx Hc. unfold buffer_get, offset. cbn.
    apply join_replicate_lookup; [|done].
    assert (r * w + x + 1 <= h * w) by nia. lia.
Qed.

(** ** The colorspace converter keeps the shape *)

Lemma conversions_keep_shape_aux (b : pixel_buffer) :
  shape (buffer_convert_linear_to_srgb b) = shape b
  /\ length (pixels (buffer_convert_linear_to_srgb b)) = length (pixels b)
  /\ shape (buffer_convert_srgb_to_linear b) = shape b
  /\ length (pixels (buffer_convert_srgb_to_linear b)) = length (pixels b).
Proof.
  rewrite linear_to_srgb_masked, srgb_to_linear_masked.
  unfold with_pixels, shape. cbn. by rewrite !masked_update_length.
Qed.

(** X3: the two conversions change neither the shape of a buffer nor the
    number of its values: a buffer whose contents are as long as its shape
    says stays so. *)
Theorem conversions_keep_shape (b : pixel_buffer) :
  shape (buffer_convert_linear_to_srgb b) = shape b
  /\ length (pixels (buffer_convert_linear_to_srgb b)) = length (pixels b)
  /\ shape (buffer_convert_srgb_to_linear b) = shape b
  /\ length (pixels (buffer_convert_srgb_to_linear b)) = length (pixels b).
Proof.
  rewrite linear_to_srgb_masked, srgb_to_linear_masked.
  unfold with_pixels, shape. cbn. by rewrite !masked_update_length.
Qed.

(** ** Acquisition on every input *)

Lemma get_pixel_buffer_absent images img atlas_colorspace :
  images !! img = None ->
  get_pixel_buffer img atlas_colorspace images
    = (images, Raise (ReferenceError msg_removed)).
Proof.
  intros Hi. unfold get_pixel_buffer, mbind, bpy_bind, datablock.
  by rewrite Hi.
Qed.

(** What [get_pixel_buffer] computes from the state of a datablock. *)
Lemma get_pixel_buffer_present images img i atlas_colorspace :
  images !! img = Some i ->
  get_pixel_buffer img atlas_colorspace images
  = (images,
     let raw :=
       PixelBuffer (size i).2 (size i).1 (img_channels i) (img_pixels i) in
     if negb (bool_decide (image_well_formed i)) then
       Raise (ValueError msg_reshape)
     else if bool_decide (atlas_colorspace = "sRGB") then
       if bool_decide (colorspace_name i = "sRGB") then Return (Some raw)
       else if bool_decide (colorspace_name i ∈ linear_colorspaces) then
         Return (Some (buffer_convert_linear_to_srgb raw))
       else Raise (TypeError msg_unsupported_image_colorspace)
     else if bool_decide (atlas_colorspace ∈ linear_colorspaces) then
       if bool_decide (colorspace_name i ∈ linear_colorspaces) then
         Return (Some raw)
       else if bool_decide (colorspace_name i = "sRGB") then
         Return (Some (buffer_convert_srgb_to_linear raw))
       else Return None
     else Raise (TypeError msg_unsupported_atlas_colorspace)).
Proof.
  intros Hi. unfold get_pixel_buffer. read_datablock Hi.
  unfold image_well_formed.
  destruct (size i) as [w h]. cbn [fst snd].
  unfold __get_buffer_internal.
  unfold mbind at 1. unfold bpy_bind at 1. read_datablock Hi.
  cbn [mbind bpy_bind mret bpy_ret].
  destruct (bool_decide (length (img_pixels i) = h * w * img_channels i));
    cbn [negb]; [|done].
  repeat case_bool_decide; done.
Qed.

Lemma get_pixel_buffer_store images img atlas_colorspace :
  (get_pixel_buffer img atlas_colorspace images).1 = images.
Proof.
  destruct (images !! img) as [i|] eqn:Hi.
  - by rewrite (get_pixel_buffer_present _ _ _ _ Hi).
  - by rewrite (get_pixel_buffer_absent _ _ _ Hi).
Qed.

(** X4: [get_pixel_buffer] changes no image of the host, whatever the image,
    the atlas colorspace and the outcome. *)
Theorem get_pixel_buffer_keeps_images images img atlas_colorspace :
  (get_pixel_buffer img atlas_colorspace images).1 = images.
Proof.
  destruct (images !! img) as [i|] eqn:Hi.
  - by rewrite (get_pixel_buffer_present _ _ _ _ Hi).
  - by rewrite (get_pixel_buffer_absent _ _ _ Hi).
Qed.

(** X5: when the image is in the colorspace of the atlas, sRGB for sRGB or
    any linear name for any linear name, the buffer returned holds the raw
    pixels of the image in the shape (height, width, channels): nothing is
    converted. *)
Theorem get_pixel_buffer_same_colorspace images img i atlas_colorspace :
  images !! img = Some i ->
  image_well_formed i ->
  (atlas_colorspace = "sRGB" /\ colorspace_name i = "sRGB")
  \/ (atlas_colorspace ∈ linear_colorspaces
      /\ colorspace_name i ∈ linear_colorspaces) ->
  get_pixel_buffer img atlas_colorspace images
  = (images,
     Return (Some (PixelBuffer (size i).2 (size i).1 (img_channels i)
                     (img_pixels i)))).
Proof.
  intros Hi Hwf Hsame. rewrite (get_pixel_buffer_present _ _ _ _ Hi).
  rewrite (bool_decide_eq_true_2 _ Hwf). cbn [negb]. cbv zeta.
  destruct Hsame as [[-> Hcs]|[Hatlas Hcs]].
  - by rewrite !bool_decide_eq_true_2.
  - assert (atlas_colorspace <> "sRGB")
      by (intros ->; by apply sRGB_not_linear).
    rewrite (bool_decide_eq_false_2 (atlas_colorspace = "sRGB")) by done.
    by rewrite !bool_decide_eq_true_2.
Qed.

(** X6: an atlas colorspace that is neither sRGB nor a linear name makes
    [get_pixel_buffer] raise the [TypeError] of the atlas colorspace,
    whatever the colorspace of the image. *)
Theorem get_pixel_buffer_unsupported_atlas images img i atlas_colorspace :
  images !! img = Some i ->
  image_well_formed i ->
  atlas_colorspace ∉ supported_colorspaces ->
  get_pixel_buffer img atlas_colorspace images
    = (images, Raise (TypeError msg_unsupported_atlas_colorspace)).
Proof.
  intros Hi Hwf [Hs Hl]%not_supported.
  rewrite (get_pixel_buffer_present _ _ _ _ Hi).
  rewrite (bool_decide_eq_true_2 _ Hwf). cbn [negb]. cbv zeta.
  by rewrite (bool_decide_eq_false_2 _ Hs), (bool_decide_eq_false_2 _ Hl).
Qed.

(** X7: for the sRGB atlas, an image whose colorspace is neither sRGB nor a
    linear name makes [get_pixel_buffer] raise the [TypeError] of the image
    colorspace. *)
Theorem get_pixel_buffer_unsupported_image images img i :
  images !! img = Some i ->
  image_well_formed i ->
  colorspace_name i ∉ supported_colorspaces ->
  get_pixel_buffer img "sRGB" images
    = (images, Raise (TypeError msg_unsupported_image_colorspace)).
Proof.
  intros Hi Hwf [Hs Hl]%not_supported.
  rewrite (get_pixel_buffer_present _ _ _ _ Hi).
  rewrite (bool_decide_eq_true_2 _ Hwf). cbn [negb]. cbv zeta.
  rewrite (bool_decide_eq_true_2 ("sRGB" = "sRGB")) by done.
  by rewrite (bool_decide_eq_false_2 _ Hs), (bool_decide_eq_false_2 _ Hl).
Qed.

(** X8: a buffer that [get_pixel_buffer] returns has the shape (height,
    width, channels) of the image and contents as long as the shape says. *)
Theorem get_pixel_buffer_returns_well_formed images img i atlas_colorspace
    images' (b : pixel_buffer) :
  images !! img = Some i ->
  get_pixel_buffer img atlas_colorspace images = (images', Return (Some b)) ->
  shape b = ((size i).2, (size i).1, img_channels i) /\ well_formed b.
Proof.
  intros Hi. rewrite (get_pixel_buffer_present _ _ _ _ Hi). cbv zeta.
  destruct (bool_decide (image_well_formed i)) eqn:Hwf; cbn [negb];
    [|discriminate].
  apply bool_decide_eq_true_1 in Hwf.
  set (raw := PixelBuffer _ _ _ _).
  assert (Hraw : shape raw = ((size i).2, (size i).1, img_channels i)
                 /\ well_formed raw) by done.
  pose proof (conversions_keep_shape_aux raw) as (Hs1 & Hl1 & Hs2 & Hl2).
  assert (Hlin : well_formed (buffer_convert_linear_to_srgb raw)).
  { unfold well_formed. rewrite Hl1. apply Hraw. }
  assert (Hsrgb : well_formed (buffer_convert_srgb_to_linear raw)).
  { unfold well_formed. rewrite Hl2. apply Hraw. }
  repeat case_bool_decide; intros [= <- <-]; split;
    try done; congruence.
Qed.

(** ** Acquisition converts into the colorspace of the atlas *)

Lemma linear_to_srgb_get (b : pixel_buffer) r x c :
  fmul f0 f12_92 = f0 ->
  well_formed b ->
  r < height b -> x < width b -> c < channels b ->
  buffer_get (buffer_convert_linear_to_srgb b) r x c
  = (if bool_decide (c < 3) then linear_to_srgb_component else id)
      <$> buffer_get b r x c.
Proof.
  intros Hmul Hwf Hr Hx Hc.
  rewrite linear_to_srgb_masked, buffer_get_masked by done.
  case_bool_decide; [|by rewrite option_fmap_id].
  destruct (buffer_get b r x c) as [v|]; [|done]. simpl. f_equal.
  unfold linear_to_srgb_component, fmax.
  destruct (fltb v f0_0031308); [|done].
  destruct (fltb v f0); by rewrite ?Hmul.
Qed.

Lemma srgb_to_linear_get (b : pixel_buffer) r x c :
  fdiv f0 f12_92 = f0 ->
  well_formed b ->
  r < height b -> x < width b -> c < channels b ->
  buffer_get (buffer_convert_srgb_to_linear b) r x c
  = (if bool_decide (c < 3) then srgb_to_linear_component else id)
      <$> buffer_get b r x c.
Proof.
  intros Hdiv Hwf Hr Hx Hc.
  rewrite srgb_to_linear_masked, buffer_get_masked by done.
  case_bool_decide; [|by rewrite option_fmap_id].
  destruct (buffer_get b r x c) as [v|]; [|done]. simpl. f_equal.
  unfold srgb_to_linear_component, fmax.
  destruct (fltb v f0_04045); [|done].
  destruct (fltb v f0); by rewrite ?Hdiv.
Qed.

(** X9: for the sRGB atlas, the buffer of an image in a linear colorspace
    holds, in the first three channels, the raw values of the image taken
    through the transfer function from linear to sRGB, and in a fourth
    channel the raw value; for a linear atlas and an sRGB image it is the
    transfer function from sRGB to linear. *)
Theorem get_pixel_buffer_converts images img i atlas_colorspace r x c :
  fmul f0 f12_92 = f0 ->
  fdiv f0 f12_92 = f0 ->
  images !! img = Some i ->
  image_well_formed i ->
  r < (size i).2 -> x < (size i).1 -> c < img_channels i ->
  let raw := img_pixels i !! ((r * (size i).1 + x) * img_channels i + c) in
  (atlas_colorspace = "sRGB" ->
   colorspace_name i ∈ linear_colorspaces ->
   exists b,
     get_pixel_buffer img atlas_colorspace images = (images, Return (Some b))
     /\ buffer_get b r x c
        = (if bool_decide (c < 3) then linear_to_srgb_component else id)
            <$> raw)
  /\ (atlas_colorspace ∈ linear_colorspaces ->
      colorspace_name i = "sRGB" ->
      exists b,
        get_pixel_buffer img atlas_colorspace images
          = (images, Return (Some b))
        /\ buffer_get b r x c
           = (if bool_decide (c < 3) then srgb_to_linear_component else id)
               <$> raw).
Proof.
  intros Hmul Hdiv Hi Hwf Hr Hx Hc raw.
  rewrite (get_pixel_buffer_present _ _ _ _ Hi).
  rewrite (bool_decide_eq_true_2 _ Hwf). cbn [negb]. cbv zeta.
  split.
  - intros -> Hlin.
    assert (colorspace_name i <> "sRGB")
      by (intros Heq; rewrite Heq in Hlin; by apply sRGB_not_linear).
    rewrite (bool_decide_eq_true_2 ("sRGB" = "sRGB")) by done.
    rewrite (bool_decide_eq_false_2 (colorspace_name i = "sRGB")) by done.
    rewrite (bool_decide_eq_true_2 _ Hlin).
    eexists. split; [done|].
    by rewrite linear_to_srgb_get.
  - intros Hatlas Hs.
    assert (atlas_colorspace <> "sRGB")
      by (intros ->; by apply sRGB_not_linear).
    assert (colorspace_name i ∉ linear_colorspaces)
      by (rewrite Hs; apply sRGB_not_linear).
    rewrite (bool_decide_eq_false_2 (atlas_colorspace = "sRGB")) by done.
    rewrite (bool_decide_eq_true_2 _ Hatlas).
    rewrite (bool_decide_eq_false_2 (colorspace_name i ∈ linear_colorspaces))
      by done.
    rewrite (bool_decide_eq_true_2 _ Hs).
    eexists. split; [done|].
    by rewrite srgb_to_linear_get.
Qed.

(** ** Writing and reading back *)

Lemma write_pixel_buffer_returns images img i (buffer : pixel_buffer) :
  images !! img = Some i ->
  length (pixels buffer) = length (img_pixels i) ->
  shape buffer = ((size i).2, (size i).1, img_channels i) ->
  write_pixel_buffer img buffer images
  = (<[img := {| size := size i;
                 img_channels := img_channels i;
                 colorspace_name := colorspace_name i;
                 img_pixels := pixels buffer |}]> images,
     Return tt).
Proof.
  intros Hi Hlen Hshape.
  unfold write_pixel_buffer. read_datablock Hi.
  destruct (size i) as [w h] eqn:Hsize. cbn [fst snd] in Hshape.
  rewrite bool_decide_eq_true_2 by done.
  unfold __write_pixel_buffer_internal, pixels_foreach_set.
  read_datablock Hi.
  rewrite bool_decide_eq_true_2 by done.
  unfold images_update. by rewrite Hsize.
Qed.


(** X11: the buffer read from an image, for an atlas in the colorspace of
    the image, can be written back to the image, and writing it back leaves
    every image as it was. *)
Theorem get_then_write_pixel_buffer images img i atlas_colorspace :
  images !! img = Some i ->
  image_well_formed i ->
  (atlas_colorspace = "sRGB" /\ colorspace_name i = "sRGB")
  \/ (atlas_colorspace ∈ linear_colorspaces
      /\ colorspace_name i ∈ linear_colorspaces) ->
  exists b,
    get_pixel_buffer img atlas_colorspace images = (images, Return (Some b))
    /\ write_pixel_buffer img b images = (images, Return tt).
Proof.
  intros Hi Hwf Hsame.
  exists (PixelBuffer (size i).2 (size i).1 (img_channels i) (img_pixels i)).
  split.
  - rewrite (get_pixel_buffer_present _ _ _ _ Hi).
    rewrite (bool_decide_eq_true_2 _ Hwf). cbn [negb]. cbv zeta.
    destruct Hsame as [[-> Hcs]|[Hatlas Hcs]].
    + by rewrite !bool_decide_eq_true_2.
    + assert (atlas_colorspace <> "sRGB")
        by (intros ->; by apply sRGB_not_linear).
      rewrite (bool_decide_eq_false_2 (atlas_colorspace = "sRGB")) by done.
      by rewrite !bool_decide_eq_true_2.
  - rewrite (write_pixel_buffer_returns _ _ _ _ Hi) by done.
    cbn [pixels]. f_equal. apply insert_id. rewrite Hi. by destruct i.
Qed.

(** ** Resizing keeps the images *)

(** X12: whatever the outcome of [get_resized_pixel_buffer], every image
    that was there before is there afterwards in the state it had: the
    original is neither resized nor reloaded, and no other image is
    touched. *)
Theorem get_resized_pixel_buffer_keeps_originals images img
    (new_size : nat * nat) h :
  is_Some (images !! h) ->
  (get_resized_pixel_buffer img new_size images).1 !! h = images !! h.
Proof.
  intros Hh. unfold get_resized_pixel_buffer.
  destruct (images !! img) as [i|] eqn:Hi.
  - rewrite (copy_and_scale _ _ _ _ _ Hi).
    set (copy := fresh (dom images)).
    set (images' := <[copy := scaled i new_size.1 new_size.2]> images).
    assert (Hcopy : images' !! copy = Some (scaled i new_size.1 new_size.2))
      by apply lookup_insert_eq.
    assert (Hne : copy <> h).
    { intros Heq. rewrite <- Heq in Hh. unfold copy in Hh.
      rewrite fresh_handle_unused in Hh. by destruct Hh. }
    pose proof (get_pixel_buffer_store images' copy "sRGB") as Hstore.
    destruct (get_pixel_buffer copy "sRGB" images') as [images'' [ob|e]] eqn:Hget;
      cbn [fst] in Hstore; subst images''.
    + step Hget. step (images_remove_returns _ _ _ Hcopy).
      cbn [mret bpy_ret fst]. unfold images'.
      by rewrite delete_insert_eq, delete_id by apply fresh_handle_unused.
    + rewrite (bind_raise _ _ _ _ _ Hget). cbn [fst].
      unfold images'. by rewrite lookup_insert_ne.
  - assert (Hraise : image_copy img images
                     = (images, Raise (ReferenceError msg_removed))).
    { unfold image_copy, mbind, bpy_bind, datablock. by rewrite Hi. }
    by rewrite (bind_raise _ _ _ _ _ Hraise).
Qed.

(** ** Fitting a box *)

(** X14: the fitted box has no negative left or upper bound and no right or
    lower bound beyond the width or height of the target plus one; fitting it
    again changes nothing, and so does fitting a box that is within these
    bounds. *)
Theorem fit_box_fits (target : pixel_buffer) (left_ upper right_ lower : Z) :
  let '(fit_left, fit_upper, fit_right, fit_lower) :=
    fit_box target (left_, upper, right_, lower) in
  (0 <= fit_left /\ 0 <= fit_upper
   /\ fit_right <= Z.of_nat (width target) + 1
   /\ fit_lower <= Z.of_nat (height target) + 1)%Z
  /\ fit_box target (fit_left, fit_upper, fit_right, fit_lower)
     = (fit_left, fit_upper, fit_right, fit_lower)
  /\ ((0 <= left_ /\ 0 <= upper
       /\ right_ <= Z.of_nat (width target) + 1
       /\ lower <= Z.of_nat (height target) + 1)%Z ->
      (fit_left, fit_upper, fit_right, fit_lower)
        = (left_, upper, right_, lower)).
Proof.
  unfold fit_box. cbv beta iota zeta. split; [lia|]. split.
  - rewrite !pair_equal_spec. lia.
  - intros (? & ? & ? & ?). rewrite !pair_equal_spec. lia.
Qed.

(** ** Pasting: what never changes *)

(** X15: [pixel_buffer_paste] never changes the shape of the target nor the
    number of its values, and a call that raises, whatever the exception,
    leaves the target exactly as it was. *)
Theorem paste_keeps_shape (target : pixel_buffer) (source : paste_source)
    (corner_or_box : list Z) :
  let after := pixel_buffer_paste target source corner_or_box in
  shape after.1 = shape target
  /\ length (pixels after.1) = length (pixels target)
  /\ forall e, after.2 = Raise e -> after.1 = target.
Proof.
  cbv zeta. unfold pixel_buffer_paste.
  repeat case_match; cbn [fst snd with_pixels pixels shape height width channels];
    rewrite ?scatter_length; (split; [done|]); (split; [done|]);
    intros exn Hexn; done.
Qed.

(** ** Pasting a pixel color: the whole target, and no color *)

Lemma view_get_flip (t : pixel_buffer) r x c :
  r < height t ->
  buffer_get t r x c = view_get t (height t - 1 - r) x c.
Proof.
  intros Hr. unfold view_get, flipped_offset, buffer_get.
  do 2 f_equal. lia.
Qed.

(** X17: a color pasted into a box that covers the target, also one that is
    larger than the target, replaces the first channels of every pixel, as
    many as the color has components, and leaves the other channels. *)
Theorem color_paste_covering_box (target : pixel_buffer) (items : list F)
    (left_ upper right_ lower : Z) :
  well_formed target ->
  length items <= channels target ->
  (left_ <= 0)%Z -> (upper <= 0)%Z ->
  (Z.of_nat (width target) <= right_)%Z ->
  (Z.of_nat (height target) <= lower)%Z ->
  exists target',
    pixel_buffer_paste target (Sequence items) [left_; upper; right_; lower]
      = (target', Return tt)
    /\ forall r x c,
         r < height target -> x < width target -> c < channels target ->
         buffer_get target' r x c
         = if bool_decide (c < length items) then items !! c
           else buffer_get target r x c.
Proof.
  intros Hwf Hlen Hl Hu Hr Hlo.
  destruct (color_paste_writes target items left_ upper right_ lower Hwf Hlen)
    as (target' & Hpaste & Hshape & Hget).
  exists target'. split; [done|].
  intros r x c Hrow Hx Hc.
  assert (Hh : height target' = height target)
    by (unfold shape in Hshape; congruence).
  rewrite !view_get_flip by lia. rewrite Hh, Hget by lia.
  match goal with
  | |- (if bool_decide ?P then _ else _) = (if bool_decide ?Q then _ else _) =>
      rewrite (bool_decide_ext P Q); [done|]
  end.
  rewrite !slice_indices_mem by lia.
  rewrite Z.max_r, Z.max_r by lia.
  split; [tauto|]. intros Hcl. split_and!; (done || lia).
Qed.

Lemma region_writes_no_channel (t : pixel_buffer) rows cols first value :
  region_writes t rows cols (first, 0) value = [].
Proof.
  apply elem_of_nil_inv. intros w Hw.
  apply elem_of_region_writes in Hw as (dy & dx & dc & _ & _ & Hdc & _).
  cbn [snd] in Hdc. lia.
Qed.

(** X20: a color of no component, which is no longer than any target has
    channels, is accepted, and pasting it into any box changes nothing. *)
Theorem empty_color_paste (target : pixel_buffer)
    (left_ upper right_ lower : Z) :
  pixel_buffer_paste target (Sequence []) [left_; upper; right_; lower]
    = (target, Return tt).
Proof.
  unfold pixel_buffer_paste.
  rewrite sequence_source_is_pixel, bool_decide_eq_true_2 by (cbn; lia).
  cbn [fit_box source_len source_values length].
  change 0%Z with (Z.of_nat 0) at 3. rewrite slice_indices_prefix.
  cbn [Nat.min snd]. unfold broadcastable at 1.
  rewrite (bool_decide_eq_true_2 (0 = 0)) by done. cbn [orb].
  rewrite region_writes_no_channel. unfold scatter. cbn [fold_left].
  by destruct target.
Qed.

(** ** Pasting: sources and boxes that are refused *)

(** X19: a numpy array of neither one nor three dimensions, a tuple or list
    longer than the target has channels and an object that is none of these
    are refused with [TypeError], whatever the corner or box, and the target
    stays as it was. *)
Theorem paste_refuses_source (target : pixel_buffer)
    (source_shape : list nat) (data items : list F) (corner_or_box : list Z) :
  length source_shape <> 1 ->
  length source_shape <> 3 ->
  channels target < length items ->
  pixel_buffer_paste target (Ndarray source_shape data) corner_or_box
    = (target, Raise (TypeError msg_source_buffer_or_pixel))
  /\ pixel_buffer_paste target (Sequence items) corner_or_box
     = (target, Raise (TypeError msg_source_pixel))
  /\ pixel_buffer_paste target OtherObject corner_or_box
     = (target, Raise (TypeError msg_source_pixel)).
Proof.
  intros H1 H3 Hlen. unfold pixel_buffer_paste, source_is_pixel.
  rewrite (bool_decide_eq_false_2 (length source_shape = 3)) by done.
  rewrite (bool_decide_eq_false_2 (length source_shape = 1)) by done.
  rewrite (bool_decide_eq_false_2 (length items <= channels target)) by lia.
  done.
Qed.

(** X22: a buffer pasted with a third argument that has neither two nor four
    coordinates is refused with the [TypeError] of the corner or box, also
    when the source has more channels than the target, and the target stays
    as it was. *)
Theorem paste_refuses_corner_or_box (target : pixel_buffer)
    source_height source_width source_channels (data : list F)
    (corner_or_box : list Z) :
  length corner_or_box <> 2 ->
  length corner_or_box <> 4 ->
  pixel_buffer_paste target
    (Ndarray [source_height; source_width; source_channels] data)
    corner_or_box
  = (target, Raise (TypeError msg_corner_or_box)).
Proof.
  intros H2 H4. unfold pixel_buffer_paste, source_is_pixel.
  cbn [length bool_decide].
  rewrite (bool_decide_eq_true_2 (3 = 3)) by done.
  by destruct corner_or_box as [|a [|b [|c [|d [|e cb]]]]].
Qed.

(** ** Pasting a buffer into a box *)

(** X23: a buffer of one pixel pasted into a box inside the target is
    repeated over the box: every pixel of the box takes the channels of that
    pixel, and every other value stays. *)
Theorem single_pixel_buffer_paste (target : pixel_buffer)
    source_channels (data : list F) (left_ upper right_ lower : Z) :
  well_formed target ->
  length data = source_channels ->
  source_channels <= channels target ->
  (0 <= left_ <= right_)%Z -> (right_ <= Z.of_nat (width target))%Z ->
  (0 <= upper <= lower)%Z -> (lower <= Z.of_nat (height target))%Z ->
  exists target',
    pixel_buffer_paste target (Ndarray [1; 1; source_channels] data)
      [left_; upper; right_; lower]
      = (target', Return tt)
    /\ forall y x c,
         y < height target -> x < width target -> c < channels target ->
         view_get target' y x c
         = if bool_decide ((left_ <= Z.of_nat x < right_)%Z
                           /\ (upper <= Z.of_nat y < lower)%Z
                           /\ c < source_channels)
           then data !! c
           else view_get target y x c.
Proof.
  intros Hwf Hdata Hc Hl Hr Hu Hlo.
  unfold pixel_buffer_paste, source_is_pixel. cbn [length bool_decide].
  rewrite (bool_decide_eq_true_2 (3 = 3)) by done.
  rewrite (bool_decide_eq_true_2 (source_channels <= channels target))
    by done.
  unfold fit_box.
  rewrite (Z.max_l left_), (Z.max_l upper) by lia.
  rewrite (Z.min_l right_), (Z.min_l lower) by lia.
  replace (left_ - left_)%Z with 0%Z by lia.
  replace (upper - upper)%Z with 0%Z by lia.
  replace (Z.of_nat 1 - right_ + right_)%Z with 1%Z by lia.
  replace (Z.of_nat 1 - lower + lower)%Z with 1%Z by lia.
  rewrite slice_indices_prefix.
  rewrite !slice_indices_within by lia. cbn [fst snd].
  replace (source_channels `min` channels target) with source_channels by lia.
  change (Z.to_nat (1 - 0)) with 1. change (Z.to_nat 0) with 0.
  unfold broadcastable at 1 2.
  rewrite !(bool_decide_eq_true_2 (1 = 1)) by done.
  rewrite !orb_true_r, broadcastable_refl. cbn [andb].
  eexists. split; [done|].
  intros y x c Hy Hx Hch.
  rewrite region_assign_lookup; try done; cbn [fst snd]; try lia.
  - match goal with
    | |- (if bool_decide ?P then _ else _)
         = (if bool_decide ?Q then _ else _) =>
        destruct (decide Q) as [HQ|HQ];
          [rewrite (bool_decide_eq_true_2 P), (bool_decide_eq_true_2 Q)
             by (done || lia)
          |rewrite (bool_decide_eq_false_2 P), (bool_decide_eq_false_2 Q)
             by (done || lia); done]
    end.
    unfold broadcast_index at 1 2.
    rewrite !(bool_decide_eq_true_2 (1 = 1)) by done.
    rewrite broadcast_index_lt by lia.
    unfold flipped_offset, offset. cbn. f_equal. lia.
  - intros dy dx dc Hdy Hdx Hdc.
    unfold broadcast_index at 1 2.
    rewrite !(bool_decide_eq_true_2 (1 = 1)) by done.
    rewrite broadcast_index_lt by lia.
    apply lookup_lt_is_Some. unfold flipped_offset, offset. cbn. lia.
Qed.

(** X24: a buffer pasted into a box inside the target whose width is not
    the width of the buffer is not scaled to the box: unless the buffer is
    one pixel wide, numpy's [ValueError] is raised and the target stays as
    it was. *)
Theorem paste_into_box_of_other_width_raises (target : pixel_buffer)
    source_height source_width source_channels (data : list F)
    (left_ upper right_ lower : Z) :
  source_channels <= channels target ->
  (0 <= left_ <= right_)%Z -> (right_ <= Z.of_nat (width target))%Z ->
  source_width <> 1 ->
  (Z.of_nat source_width <> right_ - left_)%Z ->
  pixel_buffer_paste target
    (Ndarray [source_height; source_width; source_channels] data)
    [left_; upper; right_; lower]
  = (target, Raise (ValueError msg_broadcast)).
Proof.
  intros Hc Hl Hr Hone Hwidth.
  unfold pixel_buffer_paste, source_is_pixel. cbn [length bool_decide].
  rewrite (bool_decide_eq_true_2 (3 = 3)) by done.
  rewrite (bool_decide_eq_true_2 (source_channels <= channels target))
    by done.
  unfold fit_box.
  rewrite (Z.max_l left_) by lia. rewrite (Z.min_l right_) by lia.
  replace (left_ - left_)%Z with 0%Z by lia.
  replace (Z.of_nat source_width - right_ + right_)%Z
    with (Z.of_nat source_width) by lia.
  rewrite (slice_indices_within left_ right_) by lia.
  rewrite (slice_indices_within 0 (Z.of_nat source_width)) by lia.
  cbn [snd].
  replace (broadcastable (Z.to_nat (Z.of_nat source_width - 0))
             (Z.to_nat (right_ - left_))) with false;
    [by rewrite andb_false_r|].
  symmetry. unfold broadcastable.
  by rewrite !bool_decide_eq_false_2 by lia.
Qed.

(** ** A new image for a buffer *)


(** X26: when the image that the host creates has another number of
    channels than the buffer, [buffer_to_image] raises the [RuntimeError] of
    the shapes, and the image it created stays among the images. *)
Theorem buffer_to_image_other_channels
    (new_image : string -> nat -> nat -> bool -> image)
    images (buffer : pixel_buffer) (name : string) :
  let i :=
    new_image name (width buffer) (height buffer)
      (bool_decide (channels buffer = 4)) in
  img_channels i <> channels buffer ->
  buffer_to_image new_image buffer name images
  = (<[fresh (dom images) := i]> images,
     Raise (RuntimeError msg_shape_mismatch)).
Proof.
  intros i Hch. unfold buffer_to_image. fold i.
  assert (Hnew : images_new i images
                 = (<[fresh (dom images) := i]> images,
                    Return (fresh (dom images)))) by done.
  step Hnew.
  assert (Hwrite : write_pixel_buffer (fresh (dom images)) buffer
                     (<[fresh (dom images) := i]> images)
                   = (<[fresh (dom images) := i]> images,
                      Raise (RuntimeError msg_shape_mismatch))).
  { unfold write_pixel_buffer.
    read_datablock (lookup_insert_eq images (fresh (dom images)) i).
    destruct (size i) as [w h].
    rewrite bool_decide_eq_false_2; [done|].
    unfold shape. intros [= _ _ Heq]. congruence. }
  by rewrite (bind_raise _ _ _ _ _ Hwrite).
Qed.

End PixelBuffer.

(** ** Examples on binary32 floats and on integers *)

Lemma conversions_apply_transfer_functions_witness :
  let b :=
    PixelBuffer 1 1 4 [b32 1 (-1); b32 1 (-10); b32 (-1) (-10); b32 1 (-1)] in
  fmul f0 f12_92 = f0
  /\ fdiv f0 f12_92 = f0
  /\ well_formed b
  /\ 0 < height b /\ 0 < width b /\ 2 < channels b /\ 2 < 3
  /\ buffer_get (buffer_convert_linear_to_srgb b) 0 0 2
       = linear_to_srgb_component <$> buffer_get b 0 0 2
  /\ buffer_get (buffer_convert_srgb_to_linear b) 0 0 2
       = srgb_to_linear_component <$> buffer_get b 0 0 2.
Proof.
  intros b.
  assert (Hmul : fmul f0 f12_92 = f0 (F := binary32)) by reflexivity.
  assert (Hdiv : fdiv f0 f12_92 = f0 (F := binary32)) by reflexivity.
  assert (Hwf : well_formed b) by reflexivity.
  assert (Hr : 0 < height b) by (simpl; lia).
  assert (Hx : 0 < width b) by (simpl; lia).
  assert (Hc : 2 < channels b) by (simpl; lia).
  assert (Hc3 : 2 < 3) by lia.
  repeat (split; [assumption|]).
  exact (conversions_apply_transfer_functions b 0 0 2
           Hmul Hdiv Hwf Hr Hx Hc Hc3).
Defined.

Lemma conversions_keep_alpha_witness :
  let b :=
    PixelBuffer 1 1 4 [b32 1 (-1); b32 1 (-10); b32 (-1) (-10); b32 1 (-1)] in
  channels b = 4
  /\ 0 < width b
  /\ buffer_get (buffer_convert_linear_to_srgb b) 0 0 3 = buffer_get b 0 0 3
  /\ buffer_get (buffer_convert_srgb_to_linear b) 0 0 3 = buffer_get b 0 0 3.
Proof.
  intros b.
  assert (Hch : channels b = 4) by reflexivity.
  assert (Hx : 0 < width b) by (simpl; lia).
  repeat (split; [assumption|]).
  exact (conversions_keep_alpha b 0 0 Hch Hx).
Defined.

Lemma get_pixel_buffer_linear_atlas_no_error_witness :
  let i := Image (1, 1) 4 "XYZ" [b32 1 (-1); b32 1 (-1); b32 1 (-1); b32 1 0] in
  let images : gmap nat image := {[ 0 := i ]} in
  images !! 0 = Some i
  /\ image_well_formed i
  /\ (colorspace_name i ∉ supported_colorspaces)
  /\ ("Linear" ∈ linear_colorspaces)
  /\ get_pixel_buffer 0 "Linear" images = (images, Return None).
Proof.
  intros i images.
  assert (Hi : images !! 0 = Some i) by reflexivity.
  assert (Hwf : image_well_formed i) by reflexivity.
  assert (Hcs : colorspace_name i ∉ supported_colorspaces)
    by (apply (bool_decide_eq_false_1 _); vm_compute; reflexivity).
  assert (Hatlas : "Linear" ∈ linear_colorspaces)
    by (apply (bool_decide_eq_true_1 _); vm_compute; reflexivity).
  repeat (split; [assumption|]).
  exact (get_pixel_buffer_linear_atlas_no_error images 0 i "Linear"
           Hi Hwf Hcs Hatlas).
Defined.

Lemma get_resized_pixel_buffer_leaves_copy_witness :
  let i := Image (2, 2) 1 "XYZ" (replicate 4 (b32 1 (-1))) in
  let images : gmap nat image := {[ 0 := i ]} in
  let scale_pixels :=
    fun (i : image) width height =>
      replicate (height * width * img_channels i) (b32 1 (-1)) in
  images !! 0 = Some i
  /\ (colorspace_name i ∉ supported_colorspaces)
  /\ exists e,
       get_resized_pixel_buffer scale_pixels 0 (1, 1) images
         = (<[fresh (dom images) := scaled scale_pixels i 1 1]> images, Raise e)
       /\ images !! fresh (dom images) = None.
Proof.
  intros i images scale_pixels.
  assert (Hi : images !! 0 = Some i) by reflexivity.
  assert (Hcs : colorspace_name i ∉ supported_colorspaces)
    by (apply (bool_decide_eq_false_1 _); vm_compute; reflexivity).
  repeat (split; [assumption|]).
  exact (get_resized_pixel_buffer_leaves_copy scale_pixels images 0 i (1, 1)
           Hi Hcs).
Defined.

Lemma write_pixel_buffer_shape_contract_witness :
  let i := Image (2, 1) 1 "sRGB" [b32 1 (-1); b32 1 (-2)] in
  let images : gmap nat image := {[ 0 := i ]} in
  let buffer := PixelBuffer 1 2 1 [b32 1 0; b32 0 0] in
  let image_shape := ((size i).2, (size i).1, img_channels i) in
  images !! 0 = Some i
  /\ image_well_formed i
  /\ well_formed buffer
  /\ (shape buffer = image_shape ->
      write_pixel_buffer 0 buffer images
        = (<[0 := {| size := size i;
                     img_channels := img_channels i;
                     colorspace_name := colorspace_name i;
                     img_pixels := pixels buffer |}]> images,
           Return tt))
  /\ (shape buffer <> image_shape ->
      write_pixel_buffer 0 buffer images
        = (images, Raise (RuntimeError msg_shape_mismatch))).
Proof.
  intros i images buffer image_shape.
  assert (Hi : images !! 0 = Some i) by reflexivity.
  assert (Hwi : image_well_formed i) by reflexivity.
  assert (Hwb : well_formed buffer) by reflexivity.
  repeat (split; [assumption|]).
  exact (write_pixel_buffer_shape_contract images 0 i buffer Hi Hwi Hwb).
Defined.

Lemma one_dimensional_array_is_pixel_witness :
  let target := PixelBuffer 1 1 3 [0; 0; 0]%Z in
  let source := Ndarray [4] [1; 2; 3; 4]%Z in
  1 <= channels target
  /\ channels target < 4
  /\ source_is_pixel target source = Return true
  /\ pixel_buffer_paste target source [0; 0; 1; 1]%Z
     = (target, Raise (ValueError msg_broadcast)).
Proof.
  intros target source.
  assert (Hc : 1 <= channels target) by (simpl; lia).
  assert (Hn : channels target < 4) by (simpl; lia).
  repeat (split; [assumption|]).
  exact (one_dimensional_array_is_pixel target 4 [1; 2; 3; 4]%Z
           0%Z 0%Z 1%Z 1%Z Hc Hn).
Defined.

Lemma paste_rejects_more_channels_witness :
  let target := PixelBuffer 1 1 3 [0; 0; 0]%Z in
  let source := Ndarray [1; 1; 4] [1; 2; 3; 4]%Z in
  channels target < 4
  /\ (pixel_buffer_paste target source [0; 0]%Z).1 = target
  /\ is_TypeError (pixel_buffer_paste target source [0; 0]%Z).2
  /\ (length [0; 0]%Z = 2 \/ length [0; 0]%Z = 4 ->
      pixel_buffer_paste target source [0; 0]%Z
        = (target, Raise (TypeError msg_more_channels))).
Proof.
  intros target source.
  assert (Hc : channels target < 4) by (simpl; lia).
  split; [assumption|].
  exact (paste_rejects_more_channels target 1 1 4 [1; 2; 3; 4]%Z [0; 0]%Z Hc).
Defined.

(** The partial overlap of the specification: a 4 by 4 buffer of three
    channels pasted at the corner (8, 8) of a 10 by 10 target of four
    channels. *)
Lemma paste_over_right_edge_raises_witness :
  let target := PixelBuffer 10 10 4 (replicate 400 0%Z) in
  3 <= channels target
  /\ (0 <= 8 < Z.of_nat (width target))%Z
  /\ (Z.of_nat (width target) < 8 + Z.of_nat 4)%Z
  /\ pixel_buffer_paste target (Ndarray [4; 4; 3] (replicate 48 1%Z)) [8; 8]%Z
     = (target, Raise (ValueError msg_broadcast)).
Proof.
  intros target.
  assert (Hc : 3 <= channels target) by (simpl; lia).
  assert (Hleft : (0 <= 8 < Z.of_nat (width target))%Z) by (simpl; lia).
  assert (Hover : (Z.of_nat (width target) < 8 + Z.of_nat 4)%Z)
    by (simpl; lia).
  repeat (split; [assumption|]).
  exact (paste_over_right_edge_raises target 4 4 3 (replicate 48 1%Z)
           8%Z 8%Z Hc Hleft Hover).
Defined.

(** C2: a pixel color pasted into a box that lies outside the target, above
    and to the left of it.  The fitted box (0, 0, -1, -1) contains no pixel,
    but its negative bounds count from the end of the axes in the slices, and
    the pixel in the top left corner, which is in the last row of the
    buffer, is filled. *)
Theorem color_paste_outside_box_fills_pixel :
  fit_box (PixelBuffer 2 2 1 [0; 0; 0; 0]%Z) (-3, -3, -1, -1)%Z
    = (0, 0, -1, -1)%Z
  /\ pixel_buffer_paste (PixelBuffer 2 2 1 [0; 0; 0; 0]%Z) (Sequence [1%Z])
       [-3; -3; -1; -1]%Z
     = (PixelBuffer 2 2 1 [0; 0; 1; 0]%Z, Return tt).
Proof. split; reflexivity. Qed.

(** ** Examples for blank buffers and acquisition *)

Lemma new_pixel_buffer_filled_witness :
  let color := [1; 0; 0]%Z in
  1 <= length color <= 4
  /\ exists b,
       new_pixel_buffer (2, 1) color = Return b
       /\ shape b = (1, 2, length color)
       /\ well_formed b
       /\ forall r x c, r < 1 -> x < 2 -> c < length color ->
            buffer_get b r x c = color !! c.
Proof.
  intros color.
  assert (Hlen : 1 <= length color <= 4) by (simpl; lia).
  split; [assumption|].
  exact (new_pixel_buffer_filled 2 1 color Hlen).
Defined.

Lemma get_pixel_buffer_same_colorspace_witness :
  let i := Image (1, 1) 2 "Raw" [b32 1 (-1); b32 1 0] in
  let images : gmap nat image := {[ 0 := i ]} in
  images !! 0 = Some i
  /\ image_well_formed i
  /\ (("Linear" = "sRGB" /\ colorspace_name i = "sRGB")
      \/ ("Linear" ∈ linear_colorspaces
          /\ colorspace_name i ∈ linear_colorspaces))
  /\ get_pixel_buffer 0 "Linear" images
     = (images,
        Return (Some (PixelBuffer (size i).2 (size i).1 (img_channels i)
                        (img_pixels i)))).
Proof.
  intros i images.
  assert (Hi : images !! 0 = Some i) by reflexivity.
  assert (Hwf : image_well_formed i) by reflexivity.
  assert (Hsame : ("Linear" = "sRGB" /\ colorspace_name i = "sRGB")
                  \/ ("Linear" ∈ linear_colorspaces
                      /\ colorspace_name i ∈ linear_colorspaces)).
  { right. split; apply (bool_decide_eq_true_1 _); vm_compute; reflexivity. }
  repeat (split; [assumption|]).
  exact (get_pixel_buffer_same_colorspace images 0 i "Linear" Hi Hwf Hsame).
Defined.

Lemma get_pixel_buffer_unsupported_atlas_witness :
  let i := Image (1, 1) 2 "XYZ" [b32 1 (-1); b32 1 0] in
  let images : gmap nat image := {[ 0 := i ]} in
  images !! 0 = Some i
  /\ image_well_formed i
  /\ ("ACES" ∉ supported_colorspaces)
  /\ get_pixel_buffer 0 "ACES" images
     = (images, Raise (TypeError msg_unsupported_atlas_colorspace)).
Proof.
  intros i images.
  assert (Hi : images !! 0 = Some i) by reflexivity.
  assert (Hwf : image_well_formed i) by reflexivity.
  assert (Hatlas : "ACES" ∉ supported_colorspaces)
    by (apply (bool_decide_eq_false_1 _); vm_compute; reflexivity).
  repeat (split; [assumption|]).
  exact (get_pixel_buffer_unsupported_atlas images 0 i "ACES" Hi Hwf Hatlas).
Defined.

Lemma get_pixel_buffer_unsupported_image_witness :
  let i := Image (1, 1) 2 "XYZ" [b32 1 (-1); b32 1 0] in
  let images : gmap nat image := {[ 0 := i ]} in
  images !! 0 = Some i
  /\ image_well_formed i
  /\ (colorspace_name i ∉ supported_colorspaces)
  /\ get_pixel_buffer 0 "sRGB" images
     = (images, Raise (TypeError msg_unsupported_image_colorspace)).
Proof.
  intros i images.
  assert (Hi : images !! 0 = Some i) by reflexivity.
  assert (Hwf : image_well_formed i) by reflexivity.
  assert (Hcs : colorspace_name i ∉ supported_colorspaces)
    by (apply (bool_decide_eq_false_1 _); vm_compute; reflexivity).
  repeat (split; [assumption|]).
  exact (get_pixel_buffer_unsupported_image images 0 i Hi Hwf Hcs).
Defined.

Lemma get_pixel_buffer_returns_well_formed_witness :
  let i := Image (1, 1) 2 "sRGB" [b32 1 (-1); b32 1 0] in
  let images : gmap nat image := {[ 0 := i ]} in
  let b := PixelBuffer 1 1 2 [b32 1 (-1); b32 1 0] in
  images !! 0 = Some i
  /\ get_pixel_buffer 0 "sRGB" images = (images, Return (Some b))
  /\ shape b = ((size i).2, (size i).1, img_channels i)
  /\ well_formed b.
Proof.
  intros i images b.
  assert (Hi : images !! 0 = Some i) by reflexivity.
  assert (Hget : get_pixel_buffer 0 "sRGB" images
                 = (images, Return (Some b))) by reflexivity.
  repeat (split; [assumption|]).
  exact (get_pixel_buffer_returns_well_formed images 0 i "sRGB" images b
           Hi Hget).
Defined.

Lemma get_pixel_buffer_converts_witness :
  let i := Image (1, 1) 4 "Linear"
             [b32 1 (-10); b32 (-1) (-10); b32 0 0; b32 1 (-1)] in
  let images : gmap nat image := {[ 0 := i ]} in
  let raw := img_pixels i !! ((0 * (size i).1 + 0) * img_channels i + 1) in
  fmul f0 f12_92 = f0
  /\ fdiv f0 f12_92 = f0
  /\ images !! 0 = Some i
  /\ image_well_formed i
  /\ 0 < (size i).2 /\ 0 < (size i).1 /\ 1 < img_channels i
  /\ ("sRGB" = "sRGB" ->
      colorspace_name i ∈ linear_colorspaces ->
      exists b,
        get_pixel_buffer 0 "sRGB" images = (images, Return (Some b))
        /\ buffer_get b 0 0 1
           = (if bool_decide (1 < 3) then linear_to_srgb_component else id)
               <$> raw)
  /\ ("sRGB" ∈ linear_colorspaces ->
      colorspace_name i = "sRGB" ->
      exists b,
        get_pixel_buffer 0 "sRGB" images = (images, Return (Some b))
        /\ buffer_get b 0 0 1
           = (if bool_decide (1 < 3) then srgb_to_linear_component else id)
               <$> raw).
Proof.
  intros i images raw.
  assert (Hmul : fmul f0 f12_92 = f0 (F := binary32)) by reflexivity.
  assert (Hdiv : fdiv f0 f12_92 = f0 (F := binary32)) by reflexivity.
  assert (Hi : images !! 0 = Some i) by reflexivity.
  assert (Hwf : image_well_formed i) by reflexivity.
  assert (Hr : 0 < (size i).2) by (simpl; lia).
  assert (Hx : 0 < (size i).1) by (simpl; lia).
  assert (Hc : 1 < img_channels i) by (simpl; lia).
  repeat (split; [assumption|]).
  exact (get_pixel_buffer_converts images 0 i "sRGB" 0 0 1
           Hmul Hdiv Hi Hwf Hr Hx Hc).
Defined.


Lemma get_then_write_pixel_buffer_witness :
  let i := Image (2, 1) 1 "sRGB" [b32 1 (-1); b32 1 (-2)] in
  let images : gmap nat image := {[ 0 := i ]} in
  images !! 0 = Some i
  /\ image_well_formed i
  /\ (("sRGB" = "sRGB" /\ colorspace_name i = "sRGB")
      \/ ("sRGB" ∈ linear_colorspaces
          /\ colorspace_name i ∈ linear_colorspaces))
  /\ exists b,
       get_pixel_buffer 0 "sRGB" images = (images, Return (Some b))
       /\ write_pixel_buffer 0 b images = (images, Return tt).
Proof.
  intros i images.
  assert (Hi : images !! 0 = Some i) by reflexivity.
  assert (Hwi : image_well_formed i) by reflexivity.
  assert (Hsame : ("sRGB" = "sRGB" /\ colorspace_name i = "sRGB")
                  \/ ("sRGB" ∈ linear_colorspaces
                      /\ colorspace_name i ∈ linear_colorspaces))
    by (left; split; reflexivity).
  repeat (split; [assumption|]).
  exact (get_then_write_pixel_buffer images 0 i "sRGB" Hi Hwi Hsame).
Defined.

Lemma get_resized_pixel_buffer_keeps_originals_witness :
  let i := Image (2, 2) 1 "XYZ" (replicate 4 (b32 1 (-1))) in
  let images : gmap nat image := {[ 0 := i ]} in
  let scale_pixels :=
    fun (i : image) width height =>
      replicate (height * width * img_channels i) (b32 1 (-1)) in
  is_Some (images !! 0)
  /\ (get_resized_pixel_buffer scale_pixels 0 (1, 1) images).1 !! 0
     = images !! 0.
Proof.
  intros i images scale_pixels.
  assert (Hh : is_Some (images !! 0)) by (exists i; reflexivity).
  split; [assumption|].
  exact (get_resized_pixel_buffer_keeps_originals scale_pixels images 0
           (1, 1) 0 Hh).
Defined.

Lemma get_resized_pixel_buffer_removes_copy_witness :
  let i := Image (2, 2) 1 "sRGB" (replicate 4 (b32 1 (-1))) in
  let images : gmap nat image := {[ 0 := i ]} in
  let scale_pixels :=
    fun (i : image) width height =>
      replicate (height * width * img_channels i) (b32 1 (-1)) in
  images !! 0 = Some i
  /\ colorspace_name i = "sRGB"
  /\ length (scale_pixels i 1 1) = 1 * 1 * img_channels i
  /\ get_resized_pixel_buffer scale_pixels 0 (1, 1) images
     = (images,
        Return (Some (PixelBuffer 1 1 (img_channels i) (scale_pixels i 1 1)))).
Proof.
  intros i images scale_pixels.
  assert (Hi : images !! 0 = Some i) by reflexivity.
  assert (Hcs : colorspace_name i = "sRGB") by reflexivity.
  assert (Hlen : length (scale_pixels i 1 1) = 1 * 1 * img_channels i)
    by reflexivity.
  repeat (split; [assumption|]).
  exact (get_resized_pixel_buffer_removes_copy scale_pixels images 0 i (1, 1)
           Hi Hcs Hlen).
Defined.

(** ** Examples for pasting and for new images *)

Lemma fit_box_fits_witness :
  let target := PixelBuffer 10 10 4 (replicate 400 0%Z) in
  (0 <= 0 /\ 0 <= 0
   /\ 5 <= Z.of_nat (width target) + 1
   /\ 5 <= Z.of_nat (height target) + 1)%Z
  /\ fit_box target (-5, -5, 5, 5)%Z = (0, 0, 5, 5)%Z
  /\ fit_box target (0, 0, 5, 5)%Z = (0, 0, 5, 5)%Z.
Proof.
  intros target.
  pose proof (fit_box_fits target (-5) (-5) 5 5) as (Hbounds & Hagain & _).
  split; [exact Hbounds|]. split; [reflexivity|exact Hagain].
Defined.

Lemma paste_keeps_shape_witness :
  let target := PixelBuffer 1 1 3 [0; 0; 0]%Z in
  let after :=
    pixel_buffer_paste target (Ndarray [1; 1; 4] [1; 2; 3; 4]%Z) [0; 0]%Z in
  after.2 = Raise (TypeError msg_more_channels)
  /\ shape after.1 = shape target
  /\ length (pixels after.1) = length (pixels target)
  /\ after.1 = target.
Proof.
  intros target after.
  assert (Hraise : after.2 = Raise (TypeError msg_more_channels))
    by reflexivity.
  pose proof (paste_keeps_shape target (Ndarray [1; 1; 4] [1; 2; 3; 4]%Z)
                [0; 0]%Z) as (Hshape & Hlen & Hsame).
  split; [assumption|]. split; [exact Hshape|]. split; [exact Hlen|].
  exact (Hsame _ Hraise).
Defined.

(** The color paste of the specification: red into the box (-5, -5, 5, 5)
    of a 10 by 10 target of four channels. *)
Lemma color_paste_in_box_witness :
  let target := PixelBuffer 10 10 4 (replicate 400 0%Z) in
  let items := [1; 0; 0]%Z in
  well_formed target
  /\ length items <= channels target
  /\ (0 <= 5)%Z /\ (0 <= 5)%Z
  /\ exists target',
       pixel_buffer_paste target (Sequence items) [-5; -5; 5; 5]%Z
         = (target', Return tt)
       /\ shape target' = shape target
       /\ forall y x c,
            y < height target -> x < width target -> c < channels target ->
            view_get target' y x c
            = if bool_decide
                   (((-5) `max` 0 <= Z.of_nat x
                       < 5 `min` (Z.of_nat (width target) + 1))%Z
                    /\ ((-5) `max` 0 <= Z.of_nat y
                          < 5 `min` (Z.of_nat (height target) + 1))%Z
                    /\ c < length items)
              then items !! c
              else view_get target y x c.
Proof.
  intros target items.
  assert (Hwf : well_formed target) by reflexivity.
  assert (Hlen : length items <= channels target) by (simpl; lia).
  assert (Hr : (0 <= 5)%Z) by lia.
  assert (Hlo : (0 <= 5)%Z) by lia.
  repeat (split; [assumption|]).
  exact (color_paste_in_box target items (-5) (-5) 5 5 Hwf Hlen Hr Hlo).
Defined.

Lemma color_paste_covering_box_witness :
  let target := PixelBuffer 2 2 2 (replicate 8 0%Z) in
  let items := [7]%Z in
  well_formed target
  /\ length items <= channels target
  /\ (-1 <= 0)%Z /\ (0 <= 0)%Z
  /\ (Z.of_nat (width target) <= 3)%Z
  /\ (Z.of_nat (height target) <= 2)%Z
  /\ exists target',
       pixel_buffer_paste target (Sequence items) [-1; 0; 3; 2]%Z
         = (target', Return tt)
       /\ forall r x c,
            r < height target -> x < width target -> c < channels target ->
            buffer_get target' r x c
            = if bool_decide (c < length items) then items !! c
              else buffer_get target r x c.
Proof.
  intros target items.
  assert (Hwf : well_formed target) by reflexivity.
  assert (Hlen : length items <= channels target) by (simpl; lia).
  assert (Hl : (-1 <= 0)%Z) by lia.
  assert (Hu : (0 <= 0)%Z) by lia.
  assert (Hr : (Z.of_nat (width target) <= 3)%Z) by (simpl; lia).
  assert (Hlo : (Z.of_nat (height target) <= 2)%Z) by (simpl; lia).
  repeat (split; [assumption|]).
  exact (color_paste_covering_box target items (-1) 0 3 2
           Hwf Hlen Hl Hu Hr Hlo).
Defined.

Lemma color_paste_needs_box_witness :
  let target := PixelBuffer 1 1 3 [0; 0; 0]%Z in
  let items := [1; 0; 0]%Z in
  length items <= channels target
  /\ length [0; 0]%Z <> 4
  /\ pixel_buffer_paste target (Sequence items) [0; 0]%Z
     = (target, Raise (TypeError msg_box_required)).
Proof.
  intros target items.
  assert (Hlen : length items <= channels target) by (simpl; lia).
  assert (Hbox : length [0; 0]%Z <> 4) by (simpl; lia).
  repeat (split; [assumption|]).
  exact (color_paste_needs_box target items [0; 0]%Z Hlen Hbox).
Defined.

Lemma paste_refuses_source_witness :
  let target := PixelBuffer 1 1 3 [0; 0; 0]%Z in
  length [2; 2] <> 1
  /\ length [2; 2] <> 3
  /\ channels target < length [1; 2; 3; 4]%Z
  /\ pixel_buffer_paste target (Ndarray [2; 2] [1; 2; 3; 4]%Z) [0; 0; 1; 1]%Z
     = (target, Raise (TypeError msg_source_buffer_or_pixel))
  /\ pixel_buffer_paste target (Sequence [1; 2; 3; 4]%Z) [0; 0; 1; 1]%Z
     = (target, Raise (TypeError msg_source_pixel))
  /\ pixel_buffer_paste target OtherObject [0; 0; 1; 1]%Z
     = (target, Raise (TypeError msg_source_pixel)).
Proof.
  intros target.
  assert (H1 : length [2; 2] <> 1) by (simpl; lia).
  assert (H3 : length [2; 2] <> 3) by (simpl; lia).
  assert (Hlen : channels target < length [1; 2; 3; 4]%Z) by (simpl; lia).
  repeat (split; [assumption|]).
  exact (paste_refuses_source target [2; 2] [1; 2; 3; 4]%Z [1; 2; 3; 4]%Z
           [0; 0; 1; 1]%Z H1 H3 Hlen).
Defined.

(** A 4 by 4 buffer of three channels pasted at the corner (6, -2) of a
    10 by 10 target of four channels: it ends at the right edge and begins
    above the target. *)
Lemma buffer_paste_at_corner_witness :
  let target := PixelBuffer 10 10 4 (replicate 400 0%Z) in
  let source := PixelBuffer 4 4 3 (replicate 48 1%Z) in
  well_formed target
  /\ well_formed source
  /\ 3 <= channels target
  /\ (0 <= 6 + Z.of_nat 4 <= Z.of_nat (width target))%Z
  /\ (0 <= -2 + Z.of_nat 4 <= Z.of_nat (height target))%Z
  /\ exists target',
       pixel_buffer_paste target (Ndarray [4; 4; 3] (replicate 48 1%Z))
         [6; -2]%Z
         = (target', Return tt)
       /\ shape target' = shape target
       /\ forall y x c,
            y < height target -> x < width target -> c < channels target ->
            view_get target' y x c
            = if bool_decide
                   ((6 `max` 0 <= Z.of_nat x < 6 + Z.of_nat 4)%Z
                    /\ ((-2) `max` 0 <= Z.of_nat y < -2 + Z.of_nat 4)%Z
                    /\ c < 3)
              then view_get source
                     (Z.to_nat (Z.of_nat y - -2))
                     (Z.to_nat (Z.of_nat x - 6)) c
              else view_get target y x c.
Proof.
  intros target source.
  assert (Hwf : well_formed target) by reflexivity.
  assert (Hwfs : well_formed source) by reflexivity.
  assert (Hc : 3 <= channels target) by (simpl; lia).
  assert (Hcols : (0 <= 6 + Z.of_nat 4 <= Z.of_nat (width target))%Z)
    by (simpl; lia).
  assert (Hrows : (0 <= -2 + Z.of_nat 4 <= Z.of_nat (height target))%Z)
    by (simpl; lia).
  repeat (split; [assumption|]).
  exact (buffer_paste_at_corner target 4 4 3 (replicate 48 1%Z) 6 (-2)
           Hwf Hwfs Hc Hcols Hrows).
Defined.

Lemma paste_refuses_corner_or_box_witness :
  let target := PixelBuffer 1 1 3 [0; 0; 0]%Z in
  length [0; 0; 1]%Z <> 2
  /\ length [0; 0; 1]%Z <> 4
  /\ pixel_buffer_paste target (Ndarray [1; 1; 4] [1; 2; 3; 4]%Z) [0; 0; 1]%Z
     = (target, Raise (TypeError msg_corner_or_box)).
Proof.
  intros target.
  assert (H2 : length [0; 0; 1]%Z <> 2) by (simpl; lia).
  assert (H4 : length [0; 0; 1]%Z <> 4) by (simpl; lia).
  repeat (split; [assumption|]).
  exact (paste_refuses_corner_or_box target 1 1 4 [1; 2; 3; 4]%Z
           [0; 0; 1]%Z H2 H4).
Defined.

Lemma single_pixel_buffer_paste_witness :
  let target := PixelBuffer 3 3 2 (replicate 18 0%Z) in
  let data := [5; 6]%Z in
  well_formed target
  /\ length data = 2
  /\ 2 <= channels target
  /\ (0 <= 1 <= 3)%Z /\ (3 <= Z.of_nat (width target))%Z
  /\ (0 <= 0 <= 2)%Z /\ (2 <= Z.of_nat (height target))%Z
  /\ exists target',
       pixel_buffer_paste target (Ndarray [1; 1; 2] data) [1; 0; 3; 2]%Z
         = (target', Return tt)
       /\ forall y x c,
            y < height target -> x < width target -> c < channels target ->
            view_get target' y x c
            = if bool_decide ((1 <= Z.of_nat x < 3)%Z
                              /\ (0 <= Z.of_nat y < 2)%Z
                              /\ c < 2)
              then data !! c
              else view_get target y x c.
Proof.
  intros target data.
  assert (Hwf : well_formed target) by reflexivity.
  assert (Hdata : length data = 2) by reflexivity.
  assert (Hc : 2 <= channels target) by (simpl; lia).
  assert (Hl : (0 <= 1 <= 3)%Z) by lia.
  assert (Hr : (3 <= Z.of_nat (width target))%Z) by (simpl; lia).
  assert (Hu : (0 <= 0 <= 2)%Z) by lia.
  assert (Hlo : (2 <= Z.of_nat (height target))%Z) by (simpl; lia).
  repeat (split; [assumption|]).
  exact (single_pixel_buffer_paste target 2 data 1 0 3 2
           Hwf Hdata Hc Hl Hr Hu Hlo).
Defined.

Lemma paste_into_box_of_other_width_raises_witness :
  let target := PixelBuffer 4 4 1 (replicate 16 0%Z) in
  1 <= channels target
  /\ (0 <= 0 <= 3)%Z /\ (3 <= Z.of_nat (width target))%Z
  /\ 2 <> 1
  /\ (Z.of_nat 2 <> 3 - 0)%Z
  /\ pixel_buffer_paste target (Ndarray [2; 2; 1] [1; 2; 3; 4]%Z)
       [0; 0; 3; 2]%Z
     = (target, Raise (ValueError msg_broadcast)).
Proof.
  intros target.
  assert (Hc : 1 <= channels target) by (simpl; lia).
  assert (Hl : (0 <= 0 <= 3)%Z) by lia.
  assert (Hr : (3 <= Z.of_nat (width target))%Z) by (simpl; lia).
  assert (Hone : 2 <> 1) by lia.
  assert (Hwidth : (Z.of_nat 2 <> 3 - 0)%Z) by lia.
  repeat (split; [assumption|]).
  exact (paste_into_box_of_other_width_raises target 2 2 1 [1; 2; 3; 4]%Z
           0 0 3 2 Hc Hl Hr Hone Hwidth).
Defined.


Lemma buffer_to_image_other_channels_witness :
  let new_image :=
    fun (name : string) (width height : nat) (alpha : bool) =>
      Image (width, height) 4 "sRGB"
        (replicate (height * width * 4) (b32 0 0)) in
  let images : gmap nat image := ∅ in
  let buffer := PixelBuffer 1 1 3 [b32 1 0; b32 0 0; b32 0 0] in
  let i := new_image "atlas" 1 1 false in
  img_channels i <> channels buffer
  /\ buffer_to_image new_image buffer "atlas" images
     = (<[fresh (dom images) := i]> images,
        Raise (RuntimeError msg_shape_mismatch)).
Proof.
  intros new_image images buffer i.
  assert (Hch : img_channels i <> channels buffer) by (simpl; lia).
  split; [assumption|].
  exact (buffer_to_image_other_channels new_image images buffer "atlas" Hch).
Defined.
